(** * ReadmePreview: visibility filter, markdown generator, export actions

    A shallow embedding of [src/components/ReadmePreview.tsx].

    Strings are sequences of bytes: the UTF-8 encoding of the text of the
    TypeScript source, which is also what the downloaded Blob holds.  The
    characters of the templates that are not ASCII are written out byte by
    byte below.

    Elements are the objects of the [ElementType] union declared in
    [types/elements]: an object with a [type] tag and the fields which
    the component reads.  The component only reads them; a field that an
    element kind does not carry is never looked at by the branch of that
    kind.

    The filter comes at two levels.  [filteredElements] is the filter on
    lists of elements of the union, where a read of [visibilityMap] is
    the read of an own key.  [Runtime] has the component as it runs: the
    read through the prototype chain and the exception it can lead to,
    the elements as objects on a heap, and the cell of [useMemo]. *)

From Stdlib Require Import Ascii String.
From stdpp Require Import gmap strings list fin_maps.

(** ** Text *)

Module Text.

Definition char (c : ascii) : string := String c EmptyString.

(** Escapes of the template literals. *)
Definition nl : string := char "010"%char.          (* \n *)
Definition dquote : string := char "034"%char.      (* the double quote *)

(** U+2022 BULLET, U+2B50 WHITE MEDIUM STAR, U+26A1 HIGH VOLTAGE SIGN,
    U+1F91D HANDSHAKE, in UTF-8. *)
Definition bullet : string :=
  String "226"%char (String "128"%char (char "162"%char)).
Definition star : string :=
  String "226"%char (String "173"%char (char "144"%char)).
Definition zap : string :=
  String "226"%char (String "154"%char (char "161"%char)).
Definition handshake : string :=
  String "240"%char (String "159"%char (String "164"%char (char "157"%char))).

(** [Array.prototype.join]: the items separated by [sep]; the empty
    string for the empty array. *)
Fixpoint join (sep : string) (items : list string) : string :=
  match items with
  | [] => EmptyString
  | [x] => x
  | x :: rest => x +:+ sep +:+ join sep rest
  end.

(** The code units which the class [\s] of a regular expression matches,
    as UTF-8 sequences: the ASCII white space (tab, line feed, vertical
    tab, form feed, carriage return, space) and the Unicode space
    separators and line terminators. [whitePrefix s] is the number of
    bytes of the white-space character [s] starts with, [0] when it
    starts with none. *)
Definition whitePrefix (s : string) : nat :=
  match s with
  | String c1 r1 =>
      let n1 := nat_of_ascii c1 in
      if (9 <=? n1) && (n1 <=? 13) || (n1 =? 32) then 1
      else
        match r1 with
        | String c2 r2 =>
            let n2 := nat_of_ascii c2 in
            if (n1 =? 194) && (n2 =? 160) then 2          (* U+00A0 *)
            else
              match r2 with
              | String c3 _ =>
                  let n3 := nat_of_ascii c3 in
                  if (n1 =? 225) && (n2 =? 154) && (n3 =? 128) then 3 (* U+1680 *)
                  else if (n1 =? 226) && (n2 =? 128)
                          && ((128 <=? n3) && (n3 <=? 138)    (* U+2000..U+200A *)
                              || (n3 =? 168) || (n3 =? 169)   (* U+2028, U+2029 *)
                              || (n3 =? 175)) then 3          (* U+202F *)
                  else if (n1 =? 226) && (n2 =? 129) && (n3 =? 159) then 3 (* U+205F *)
                  else if (n1 =? 227) && (n2 =? 128) && (n3 =? 128) then 3 (* U+3000 *)
                  else if (n1 =? 239) && (n2 =? 187) && (n3 =? 191) then 3 (* U+FEFF *)
                  else 0
              | EmptyString => 0
              end
        | EmptyString => 0
        end
  | EmptyString => 0
  end.

(** [s.replace(/\s+/g, by)]: every maximal run of white space becomes
    one copy of [by].  [skip] counts the bytes of the current white-space
    character still to be dropped; [inRun] tells that the previous
    character was white space, so that the run was replaced already. *)
Fixpoint replaceSpacesFrom (by_ : string) (skip : nat) (inRun : bool)
    (s : string) : string :=
  match s with
  | EmptyString => EmptyString
  | String c rest =>
      match skip with
      | S k => replaceSpacesFrom by_ k inRun rest
      | O =>
          match whitePrefix s with
          | O => String c (replaceSpacesFrom by_ 0 false rest)
          | S k =>
              (if inRun then EmptyString else by_)
                +:+ replaceSpacesFrom by_ k true rest
          end
      end
  end.

Definition replaceSpaces (by_ s : string) : string :=
  replaceSpacesFrom by_ 0 false s.

(** The case mapping on ASCII text, where it maps [A]..[Z] to [a]..[z]:
    an instance of [String.prototype.toLowerCase] for such text. *)
Definition asciiLower (c : ascii) : ascii :=
  let n := nat_of_ascii c in
  if (65 <=? n) && (n <=? 90) then ascii_of_nat (n + 32) else c.

Fixpoint asciiToLowerCase (s : string) : string :=
  match s with
  | EmptyString => EmptyString
  | String c rest => String (asciiLower c) (asciiToLowerCase rest)
  end.

(** [a || b] on strings: the empty string and [undefined] are falsy. *)
Definition orElse (a : option string) (b : string) : string :=
  match a with
  | Some (String c r) => String c r
  | Some EmptyString | None => b
  end.

End Text.

(** ** Data model *)

(** [type ViewMode = 'developer' | 'recruiter' | 'client'] *)
Inductive ViewMode : Type := developer | recruiter | client.

Global Instance ViewMode_eq_dec : EqDecision ViewMode.
Proof. solve_decision. Defined.

(** An object of the [ElementType] union.  [type] is the tag the component
    switches on; the optional fields are those the code reads with a
    fallback ([language || 'javascript'], the [else] of the layout test,
    the [default] of the divider switch). *)
Record Element : Type := mkElement {
  id : string;
  type : string;
  content : string;
  username : string;
  repository : string;
  layout : option string;
  technologies : list string;
  alt : string;
  src : string;
  language : option string;
  headers : list string;
  rows : list (list string);
  dividerStyle : option string;
}.

Global Instance Element_eq_dec : EqDecision Element.
Proof. solve_decision. Defined.

(** ** The visibility filter *)

(** The entries of the object literal [visibilityMap], in source order. *)
Definition visibilityEntries : list (string * list ViewMode) :=
  [ ("header", [developer; recruiter; client]);
    ("description", [developer; recruiter; client]);
    ("badges", [developer; recruiter]);
    ("installation", [developer]);
    ("usage", [developer; client]);
    ("codeblock", [developer]);
    ("features", [developer; recruiter; client]);
    ("screenshot", [recruiter; client]);
    ("demo", [recruiter; client]);
    ("api", [developer]);
    ("contributing", [developer]);
    ("license", [developer; recruiter]);
    ("contact", [developer; recruiter; client]);
    ("changelog", [developer]);
    ("roadmap", [developer; recruiter]);
    ("acknowledgments", [developer]);
    ("faq", [client]);
    ("support", [client]);
    ("sponsors", [recruiter; client]);
    ("stats", [recruiter]);
    ("skills", [recruiter]);
    ("tech", [developer; recruiter]);
    ("highlights", [recruiter; client]);
    ("branding", [client]);
    ("banner", [client; recruiter]);
    ("logo", [client; recruiter]) ].

(** [const visibilityMap: Record<string, ViewMode[]>]: the own keys of the
    object literal.  What a read inherits from [Object.prototype] is in
    [Runtime.readVisibilityMap]. *)
Definition visibilityMap : gmap string (list ViewMode) :=
  list_to_map visibilityEntries.

(** [allowed.includes(viewMode)] *)
Definition includes (allowed : list ViewMode) (viewMode : ViewMode) : bool :=
  bool_decide (viewMode ∈ allowed).

(** [visibilityMap[element.type] || ['developer', 'recruiter', 'client']]
    at the kinds of the element union, where the read is that of an own
    key or [undefined]: an array is truthy, [undefined] is not.  At a kind
    that names a member of [Object.prototype] the read is the inherited
    member; [Runtime.isAllowed] has that case. *)
Definition allowedModes (element : Element) : list ViewMode :=
  match visibilityMap !! type element with
  | Some allowed => allowed
  | None => [developer; recruiter; client]
  end.

(** [elements.filter((element) => { ... })] on a list of elements of the
    union: what the function given to [useMemo] returns when it returns
    ([Runtime.filteredElements] is the filter with its exception,
    [Runtime.useMemo] the hook with its cell). *)
Definition filteredElements (elements : list Element) (viewMode : ViewMode)
    : list Element :=
  List.filter (fun element => includes (allowedModes element) viewMode) elements.

(** ** The markdown generator *)

(** [Array.prototype.reduce] with the [index] argument of its callback, for
    a callback that may raise: [None] is a [TypeError] thrown on the way. *)
Fixpoint reduceFrom {A B : Type} (f : B → A → nat → option B)
    (index : nat) (acc : B) (items : list A) : option B :=
  match items with
  | [] => Some acc
  | x :: rest => acc' ← f acc x index; reduceFrom f (S index) acc' rest
  end.

Definition reduce {A B : Type} (f : B → A → nat → option B)
    (init : B) (items : list A) : option B :=
  reduceFrom f 0 init items.

(** The callback of the grid layout:
    [if (index % 3 === 0) acc.push([tech]);
     else acc[acc.length - 1].push(tech);
     return acc;]
    On an empty [acc] the index [acc.length - 1] is [-1] and the read is
    [undefined], whose [push] raises; here the truncated subtraction gives
    [0], which an empty list does not have either. *)
Definition gridStep (acc : list (list string)) (tech : string) (index : nat)
    : option (list (list string)) :=
  if index mod 3 =? 0 then Some (acc ++ [[tech]])
  else
    row ← acc !! (length acc - 1);
    Some (<[length acc - 1 := row ++ [tech]]> acc).

Section Generator.

(** [String.prototype.toLowerCase], the case mapping of the host. *)
Variable toLowerCase : string → string.

Import Text.

(** The callback of [filteredElements.map(...)]: the [switch] on
    [element.type]. *)
Definition elementMarkdown (element : Element) : option string :=
  if decide (type element = "header") then
    Some ("# " +:+ content element +:+ nl +:+ nl)
  else if decide (type element = "text") then
    Some (content element +:+ nl +:+ nl)
  else if decide (type element = "banner") then
    Some ("<div align=" +:+ dquote +:+ "center" +:+ dquote +:+ ">" +:+ nl
          +:+ "  <h1>" +:+ content element +:+ "</h1>" +:+ nl
          +:+ "</div>" +:+ nl +:+ nl)
  else if decide (type element = "git-contribution") then
    Some ("## " +:+ handshake +:+ " How to Contribute" +:+ nl +:+ nl
          +:+ "1. Fork the repository" +:+ nl
          +:+ "2. Clone your fork: `git clone https://github.com/"
          +:+ username element +:+ "/" +:+ repository element +:+ ".git`" +:+ nl
          +:+ "3. Create a feature branch: `git checkout -b feature-name`" +:+ nl
          +:+ "4. Make your changes and commit: `git commit -m "
          +:+ dquote +:+ "Add feature" +:+ dquote +:+ "`" +:+ nl
          +:+ "5. Push to your fork: `git push origin feature-name`" +:+ nl
          +:+ "6. Create a Pull Request" +:+ nl +:+ nl)
  else if decide (type element = "tech-stack") then
    if decide (layout element = Some "badges") then
      Some ("## " +:+ zap +:+ " Tech Stack" +:+ nl +:+ nl
            +:+ join " "
                  (map (fun tech =>
                          "![" +:+ tech +:+ "](https://img.shields.io/badge/-"
                          +:+ tech +:+ "-05122A?style=flat&logo="
                          +:+ toLowerCase tech +:+ ")")
                       (technologies element))
            +:+ nl +:+ nl)
    else if decide (layout element = Some "list") then
      Some ("## " +:+ zap +:+ " Tech Stack" +:+ nl +:+ nl
            +:+ join nl (map (fun tech => "- " +:+ tech) (technologies element))
            +:+ nl +:+ nl)
    else
      grid ← reduce gridStep [] (technologies element);
      Some ("## " +:+ zap +:+ " Tech Stack" +:+ nl +:+ nl
            +:+ "| | | |" +:+ nl +:+ "|---|---|---|" +:+ nl
            +:+ join nl (map (fun row => "| " +:+ join " | " row +:+ " |") grid)
            +:+ nl +:+ nl)
  else if decide (type element = "image") then
    Some ("![" +:+ alt element +:+ "](" +:+ src element +:+ ")" +:+ nl +:+ nl)
  else if decide (type element = "code-block") then
    Some ("```" +:+ orElse (language element) "javascript" +:+ nl
          +:+ content element +:+ nl +:+ "```" +:+ nl +:+ nl)
  else if decide (type element = "badge") then
    Some ("![" +:+ content element +:+ "](https://img.shields.io/badge/-"
          +:+ replaceSpaces "%20" (content element) +:+ "-brightgreen)"
          +:+ nl +:+ nl)
  else if decide (type element = "table") then
    let headers_ := "| " +:+ join " | " (headers element) +:+ " |" in
    let separator :=
      "| " +:+ join " | " (map (fun _ => "---") (headers element)) +:+ " |" in
    let rows_ :=
      join nl (map (fun row => "| " +:+ join " | " row +:+ " |") (rows element)) in
    Some (headers_ +:+ nl +:+ separator +:+ nl +:+ rows_ +:+ nl +:+ nl)
  else if decide (type element = "divider") then
    if decide (dividerStyle element = Some "dots") then
      Some ("<div align=" +:+ dquote +:+ "center" +:+ dquote +:+ ">"
            +:+ bullet +:+ " " +:+ bullet +:+ " " +:+ bullet +:+ "</div>"
            +:+ nl +:+ nl)
    else if decide (dividerStyle element = Some "stars") then
      Some ("<div align=" +:+ dquote +:+ "center" +:+ dquote +:+ ">"
            +:+ star +:+ " " +:+ star +:+ " " +:+ star +:+ "</div>"
            +:+ nl +:+ nl)
    else Some ("---" +:+ nl +:+ nl)
  else if decide (type element = "installation") then
    Some ("## Installation" +:+ nl +:+ nl +:+ "```bash" +:+ nl
          +:+ content element +:+ nl +:+ "```" +:+ nl +:+ nl)
  else Some EmptyString.

(** [filteredElements.map(...).join('')] *)
Definition generateMarkdown (elements : list Element) (viewMode : ViewMode)
    : option string :=
  parts ← mapM elementMarkdown (filteredElements elements viewMode);
  Some (join EmptyString parts).

End Generator.

(** ** The component and its actions *)

(** [interface ReadmePreviewProps]; [viewMode] is optional. *)
Record ReadmePreviewProps : Type := mkProps {
  elements : list Element;
  viewMode : option ViewMode;
}.

(** The parameter default [viewMode = 'developer']. *)
Definition viewModeOf (props : ReadmePreviewProps) : ViewMode :=
  default developer (viewMode props).

(** What a render reads besides the props: the [copied] state of
    [useState], the theme of [useTheme], and the answer of
    [window.matchMedia('(prefers-color-scheme: dark)')]. *)
Record Hooks : Type := mkHooks {
  copied : bool;
  theme : string;
  prefersDark : bool;
}.

Definition isDark (hooks : Hooks) : bool :=
  bool_decide (theme hooks = "dark")
  || (bool_decide (theme hooks = "system") && prefersDark hooks).

(** [getViewModeDescription] *)
Definition getViewModeDescription (mode : ViewMode) : string :=
  match mode with
  | developer =>
      "Shows technical details, code examples, setup instructions, and contribution guidelines"
  | recruiter =>
      "Highlights skills, project achievements, stats, and professional presentation"
  | client =>
      "Focuses on visuals, features, demos, and user-friendly information"
  end.

(** A [Blob]: its parts and its [type] option. *)
Record Blob : Type := mkBlob {
  blobParts : list string;
  blobType : string;
}.

(** The anchor element: [href] holds an object URL, [download] the
    suggested file name. *)
Record Anchor : Type := mkAnchor {
  href : option nat;
  download : option string;
}.

(** A file the browser has written on a download. *)
Record SavedFile : Type := mkSavedFile {
  fileName : string;
  mimeType : string;
  fileContents : string;
}.

(** The part of the browser the two actions touch: the clipboard, the
    registry of object URLs, the elements created so far (by reference:
    [a.href = url] writes to the object which [appendChild] later puts
    into the body), the children of [document.body] and the files saved. *)
Record Browser : Type := mkBrowser {
  clipboard : option string;
  objectURLs : gmap nat Blob;
  nextURL : nat;
  nodes : gmap nat Anchor;
  nextNode : nat;
  body : list nat;
  saved : list SavedFile;
}.

(** A script step: it reads and writes the browser and may raise. *)
Definition Script (A : Type) : Type := Browser → option (A * Browser).

Global Instance Script_ret : MRet Script := fun A x b => Some (x, b).
Global Instance Script_bind : MBind Script := fun A B f m b =>
  match m b with
  | Some (x, b') => f x b'
  | None => None
  end.

Definition raise {A : Type} : Script A := fun _ => None.
Definition getBrowser : Script Browser := fun b => Some (b, b).
Definition putBrowser (b' : Browser) : Script unit := fun _ => Some (tt, b').

Module URL.

(** [URL.createObjectURL(blob)] *)
Definition createObjectURL (blob : Blob) : Script nat :=
  b ← getBrowser;
  putBrowser (mkBrowser (clipboard b) (<[nextURL b := blob]> (objectURLs b))
                        (S (nextURL b)) (nodes b) (nextNode b) (body b) (saved b));;
  mret (nextURL b).

(** [URL.revokeObjectURL(url)] *)
Definition revokeObjectURL (url : nat) : Script unit :=
  b ← getBrowser;
  putBrowser (mkBrowser (clipboard b) (delete url (objectURLs b))
                        (nextURL b) (nodes b) (nextNode b) (body b) (saved b)).

End URL.

Module Document.

(** [document.createElement('a')] *)
Definition createElement_a : Script nat :=
  b ← getBrowser;
  putBrowser (mkBrowser (clipboard b) (objectURLs b) (nextURL b)
                        (<[nextNode b := mkAnchor None None]> (nodes b))
                        (S (nextNode b)) (body b) (saved b));;
  mret (nextNode b).

Definition updateNode (a : nat) (f : Anchor → Anchor) : Script unit :=
  b ← getBrowser;
  match nodes b !! a with
  | Some node =>
      putBrowser (mkBrowser (clipboard b) (objectURLs b) (nextURL b)
                            (<[a := f node]> (nodes b))
                            (nextNode b) (body b) (saved b))
  | None => raise
  end.

(** [a.href = url] and [a.download = name] *)
Definition setHref (a url : nat) : Script unit :=
  updateNode a (fun node => mkAnchor (Some url) (download node)).
Definition setDownload (a : nat) (name : string) : Script unit :=
  updateNode a (fun node => mkAnchor (href node) (Some name)).

(** [document.body.appendChild(a)] *)
Definition appendChild (a : nat) : Script unit :=
  b ← getBrowser;
  putBrowser (mkBrowser (clipboard b) (objectURLs b) (nextURL b) (nodes b)
                        (nextNode b) (List.filter (fun n => negb (n =? a)) (body b) ++ [a])
                        (saved b)).

(** [document.body.removeChild(a)]: raises when [a] is not a child. *)
Definition removeChild (a : nat) : Script unit :=
  b ← getBrowser;
  if bool_decide (a ∈ body b) then
    putBrowser (mkBrowser (clipboard b) (objectURLs b) (nextURL b) (nodes b)
                          (nextNode b) (List.filter (fun n => negb (n =? a)) (body b))
                          (saved b))
  else raise.

(** [a.click()] on an anchor with a [download] attribute: the resource of
    its [href] is saved under that name.  Without the attribute, or with
    an [href] that names no object, nothing is saved. *)
Definition click (a : nat) : Script unit :=
  b ← getBrowser;
  match nodes b !! a with
  | Some node =>
      match download node, href node ≫= (fun url => objectURLs b !! url) with
      | Some name, Some blob =>
          putBrowser (mkBrowser (clipboard b) (objectURLs b) (nextURL b) (nodes b)
                                (nextNode b) (body b)
                                (saved b ++ [mkSavedFile name (blobType blob)
                                               (Text.join EmptyString (blobParts blob))]))
      | _, _ => mret tt
      end
  | None => raise
  end.

End Document.

(** [await navigator.clipboard.writeText(text)].  The browser settles the
    promise: [granted] tells whether it resolves (the document has the
    focus and the permission) or rejects, in which case the [await]
    raises and nothing is written. *)
Definition writeText (granted : bool) (text : string) : Script unit :=
  if granted then
    b ← getBrowser;
    putBrowser (mkBrowser (Some text) (objectURLs b) (nextURL b) (nodes b)
                          (nextNode b) (body b) (saved b))
  else raise.

(** An exception of the pure part aborts the script. *)
Definition liftOption {A : Type} (o : option A) : Script A :=
  match o with
  | Some x => mret x
  | None => raise
  end.

Section Component.

Variable toLowerCase : string → string.

(** The closure [generateMarkdown] of a render with the given props. *)
Definition markdownOf (props : ReadmePreviewProps) : option string :=
  generateMarkdown toLowerCase (elements props) (viewModeOf props).

(** What a render shows, as far as it depends on props and hooks. *)
Record View : Type := mkView {
  modeDescription : string;
  actionsDisabled : bool;
  copiedNotice : bool;
  background : string;
  color : string;
  previewElements : list Element;
  markdownCode : option string;
}.

Definition render (props : ReadmePreviewProps) (hooks : Hooks) : View :=
  let visible := filteredElements (elements props) (viewModeOf props) in
  mkView (getViewModeDescription (viewModeOf props))
         (bool_decide (length visible = 0))
         (copied hooks)
         (if isDark hooks then "#18181b" else "#ffffff")
         (if isDark hooks then "#f3f4f6" else "#1e293b")
         visible
         (markdownOf props).

(** [copyToClipboard], up to the timer: the text is written and, if the
    write went through, [setCopied(true)] is called. *)
Definition copyToClipboard (props : ReadmePreviewProps) (hooks : Hooks)
    (granted : bool) : Script Hooks :=
  markdown ← liftOption (markdownOf props);
  writeText granted markdown;;
  mret (mkHooks true (theme hooks) (prefersDark hooks)).

(** The callback of [setTimeout(() => setCopied(false), 1500)]. *)
Definition copiedTimeout (hooks : Hooks) : Hooks :=
  mkHooks false (theme hooks) (prefersDark hooks).

(** [downloadMarkdown] *)
Definition downloadMarkdown (props : ReadmePreviewProps) : Script unit :=
  markdown ← liftOption (markdownOf props);
  let blob := mkBlob [markdown] "text/markdown" in
  url ← URL.createObjectURL blob;
  a ← Document.createElement_a;
  Document.setHref a url;;
  Document.setDownload a "README.md";;
  Document.appendChild a;;
  Document.click a;;
  Document.removeChild a;;
  URL.revokeObjectURL url.

End Component.

(** ** The component as it runs *)

(** The members of [Object.prototype].  The object literal [visibilityMap]
    inherits them: a read at one of these names is not [undefined] but the
    inherited function (for [__proto__], the prototype object itself). *)
Definition objectPrototypeMembers : list string :=
  [ "constructor"; "hasOwnProperty"; "isPrototypeOf"; "propertyIsEnumerable";
    "toLocaleString"; "toString"; "valueOf"; "__proto__";
    "__defineGetter__"; "__defineSetter__";
    "__lookupGetter__"; "__lookupSetter__" ].

Module Runtime.

(** What [visibilityMap[kind]] evaluates to: the array of an own key, a
    member inherited from [Object.prototype], or [undefined]. *)
Inductive MapRead : Type :=
  | ownArray (allowed : list ViewMode)
  | inheritedMember
  | undefinedRead.

Definition readVisibilityMap (kind : string) : MapRead :=
  match visibilityMap !! kind with
  | Some allowed => ownArray allowed
  | None =>
      if bool_decide (kind ∈ objectPrototypeMembers) then inheritedMember
      else undefinedRead
  end.

(** The callback of the filter:
    [const allowed = visibilityMap[element.type] || [...];
     return allowed.includes(viewMode);]
    An inherited member is truthy, so it is what [allowed] is bound to,
    and it has no [includes]: the call raises a [TypeError] ([None]). *)
Definition isAllowed (viewMode : ViewMode) (element : Element) : option bool :=
  match readVisibilityMap (type element) with
  | ownArray allowed => Some (includes allowed viewMode)
  | undefinedRead => Some (includes [developer; recruiter; client] viewMode)
  | inheritedMember => None
  end.

(** [Array.prototype.filter] with a callback that may raise: the callback
    is called on every item in order, and its exception is that of the
    filter. *)
Fixpoint arrayFilter {A : Type} (callback : A → option bool) (items : list A)
    : option (list A) :=
  match items with
  | [] => Some []
  | item :: rest =>
      keep ← callback item;
      kept ← arrayFilter callback rest;
      Some (if keep : bool then item :: kept else kept)
  end.

(** [elements.filter((element) => { ... })] on the element objects. *)
Definition filteredElements (elements : list Element) (viewMode : ViewMode)
    : option (list Element) :=
  arrayFilter (isAllowed viewMode) elements.

(** The closure [generateMarkdown]; what it reads, the constant
    [filteredElements] of the render, is its argument here. *)
Definition generateMarkdown (toLowerCase : string → string)
    (filtered : list Element) : option string :=
  parts ← mapM (elementMarkdown toLowerCase) filtered;
  Some (Text.join EmptyString parts).

(** Filter, then generate: the markdown of a first render. *)
Definition markdownOf (toLowerCase : string → string)
    (elements : list Element) (viewMode : ViewMode) : option string :=
  kept ← filteredElements elements viewMode;
  generateMarkdown toLowerCase kept.

(** *** Objects, references and [useMemo]

    The props hold a reference to the array [elements], whose items are
    references to the element objects; the host owns both and can write
    to them between two renders.  [useMemo] compares the dependencies of
    the last computation with the current ones by [Object.is]: arrays by
    reference, view modes by value. *)
Record Heap : Type := mkHeap {
  arrays : gmap nat (list nat);
  objects : gmap nat Element;
}.

Record Props : Type := mkProps {
  elements : nat;
  viewMode : option ViewMode;
}.

Definition viewModeOf (props : Props) : ViewMode :=
  default developer (viewMode props).

(** The cell of the [useMemo] hook: the dependencies [elements] and
    [viewMode] of the last computation and its value, an array of
    references to the elements kept. *)
Record Memo : Type := mkMemo {
  depElements : nat;
  depViewMode : ViewMode;
  memoValue : list nat;
}.

(** The callback at a reference to an element. *)
Definition isAllowedAt (heap : Heap) (viewMode : ViewMode) (ref : nat)
    : option bool :=
  element ← objects heap !! ref;
  isAllowed viewMode element.

(** The function given to [useMemo], run on the current heap. *)
Definition computeFiltered (heap : Heap) (props : Props) : option Memo :=
  refs ← arrays heap !! elements props;
  kept ← arrayFilter (isAllowedAt heap (viewModeOf props)) refs;
  Some (mkMemo (elements props) (viewModeOf props) kept).

(** [useMemo(() => ..., [elements, viewMode])]: the first render computes;
    a later one computes again only if a dependency changed. *)
Definition useMemo (heap : Heap) (memo : option Memo) (props : Props)
    : option Memo :=
  match memo with
  | Some cell =>
      if bool_decide (depElements cell = elements props
                      ∧ depViewMode cell = viewModeOf props)
      then Some cell
      else computeFiltered heap props
  | None => computeFiltered heap props
  end.

(** [generateMarkdown()] on the memoised array: the element objects are
    read when it is called. *)
Definition generateMarkdownAt (toLowerCase : string → string) (heap : Heap)
    (cell : Memo) : option string :=
  filtered ← mapM (fun ref => objects heap !! ref) (memoValue cell);
  generateMarkdown toLowerCase filtered.

(** A render, as far as the markdown goes: the hook, then the markdown tab
    with [{generateMarkdown()}].  It returns the cell the hook keeps and
    the markdown shown. *)
Definition render (toLowerCase : string → string) (heap : Heap)
    (memo : option Memo) (props : Props) : option (Memo * string) :=
  cell ← useMemo heap memo props;
  markdown ← generateMarkdownAt toLowerCase heap cell;
  Some (cell, markdown).

(** The element list which the props refer to, as values. *)
Definition elementList (heap : Heap) (props : Props) : option (list Element) :=
  refs ← arrays heap !! elements props;
  mapM (fun ref => objects heap !! ref) refs.

End Runtime.

(** ** The words of the specification *)

(** The kinds which the [switch] of the generator has a case for. *)
Definition handledKinds : list string :=
  [ "header"; "text"; "banner"; "git-contribution"; "tech-stack"; "image";
    "code-block"; "badge"; "table"; "divider"; "installation" ].

(** An element is visible in a view mode when its kind maps, under the
    visibility map, to modes among which the mode is; a kind without an
    entry is visible in every mode. *)
Definition visibleIn (mode : ViewMode) (element : Element) : Prop :=
  match visibilityMap !! type element with
  | Some modes => mode ∈ modes
  | None => True
  end.


(** A row of a markdown table: the cells between pipes. *)
Definition tableRow (cells : list string) : string :=
  "| " +:+ Text.join " | " cells +:+ " |".

(** What the reduction holds once it has consumed the technologies [seen],
    [index] of them: rows of three and then, unless [index] is a multiple
    of three, one open row with the [index mod 3] technologies left. *)
Definition gridInvariant (index : nat) (seen : list string)
    (acc : list (list string)) : Prop :=
  length seen = index
  ∧ concat acc = seen
  ∧ ∃ full open,
      acc = full ++ open
      ∧ Forall (fun row => length row = 3) full
      ∧ ((open = [] ∧ index mod 3 = 0)
         ∨ (∃ row, open = [row] ∧ length row = index mod 3 ∧ index mod 3 ≠ 0)).

(** ** Sample inputs *)

Module Sample.

Definition element (kind content : string) : Element :=
  mkElement "sample" kind content EmptyString EmptyString None []
            EmptyString EmptyString None [] [] None.

Definition header : Element := element "header" "README Design Kit".

Definition usage : Element := element "usage" "Run the dev server".

Definition techStack : Element :=
  mkElement "stack" "tech-stack" EmptyString EmptyString EmptyString
            (Some "grid")
            ["React"; "TypeScript"; "Vite"; "Tailwind"; "Radix"; "Zod"; "Vitest"]
            EmptyString EmptyString None [] [] None.

Definition dots : Element :=
  mkElement "rule" "divider" EmptyString EmptyString EmptyString None []
            EmptyString EmptyString None [] [] (Some "dots").

Definition line : Element :=
  mkElement "rule" "divider" EmptyString EmptyString EmptyString None []
            EmptyString EmptyString None [] [] (Some "line").

Definition table : Element :=
  mkElement "scripts" "table" EmptyString EmptyString EmptyString None []
            EmptyString EmptyString None
            ["Command"; "Purpose"]
            [["npm run dev"; "start the dev server"];
             ["npm run build"; "build for production"]]
            None.

Definition props : ReadmePreviewProps := mkProps [header; techStack; dots] None.

Definition propsDeveloper : ReadmePreviewProps :=
  mkProps [header; techStack; dots] (Some developer).

Definition hooksDark : Hooks := mkHooks false "dark" false.

Definition hooksCopied : Hooks := mkHooks true "light" true.

End Sample.


(** ** Further words for the properties *)

(** A text that ends with the blank line which closes a markdown block. *)
Definition endsWithBlankLine (s : string) : Prop :=
  ∃ block : string, s = block +:+ Text.nl +:+ Text.nl.

(** The ASCII white space: tab, line feed, vertical tab, form feed,
    carriage return and space. *)
Definition asciiSpace (c : ascii) : bool :=
  let n := nat_of_ascii c in
  (9 <=? n) && (n <=? 13) || (n =? 32).

(** The bytes of an ASCII text: below 128. *)
Definition asciiText (s : string) : Prop :=
  Forall (fun c => nat_of_ascii c < 128) (list_ascii_of_string s).

(** A browser in which the ids not handed out yet are not in use: the
    children of the body and the created elements are below [nextNode],
    the registered object URLs below [nextURL]. *)
Definition wellFormed (b : Browser) : Prop :=
  (∀ a, a ∈ body b → a < nextNode b)
  ∧ (∀ a, is_Some (nodes b !! a) → a < nextNode b)
  ∧ (∀ u, is_Some (objectURLs b !! u) → u < nextURL b).

(** More sample inputs. *)
Module SampleMore.

Definition installation : Element :=
  Sample.element "installation" "npm install".

Definition emptyBrowser : Browser := mkBrowser None ∅ 0 ∅ 0 [] [].

Definition codeBlock : Element :=
  mkElement "snippet" "code-block" "print(1)" EmptyString EmptyString None []
            EmptyString EmptyString (Some EmptyString) [] [] None.

Definition badge : Element := Sample.element "badge" "build  passing".

Definition emptyTable : Element := Sample.element "table" EmptyString.

Definition emptyStack : Element := Sample.element "tech-stack" EmptyString.

End SampleMore.

(** [s] holds [x] as it is, between some text before and some text after. *)
Definition holdsVerbatim (x s : string) : Prop :=
  ∃ before after : string, s = before +:+ x +:+ after.

(** The kinds whose template interpolates [element.content]. *)
Definition contentKinds : list string :=
  [ "header"; "text"; "banner"; "code-block"; "badge"; "installation" ].

(** ** Words for the runtime properties *)

(** The cell of the hook is up to date on a heap when it is empty, or made
    for other dependencies, or holds what the function given to [useMemo]
    returns on that heap now: the arrays and elements it was computed
    from have not been written to since. *)
Definition memoUpToDate (heap : Runtime.Heap) (props : Runtime.Props)
    (memo : option Runtime.Memo) : Prop :=
  match memo with
  | None => True
  | Some cell =>
      Runtime.depElements cell = Runtime.elements props →
      Runtime.depViewMode cell = Runtime.viewModeOf props →
      Runtime.computeFiltered heap props = Some cell
  end.

(** A word: ASCII text without white space.  A run: ASCII white space. *)
Definition plainWord (s : string) : Prop :=
  Forall (fun c => nat_of_ascii c < 128 ∧ asciiSpace c = false)
         (list_ascii_of_string s).

Definition spaceRun (s : string) : Prop :=
  s ≠ EmptyString
  ∧ Forall (fun c => asciiSpace c = true) (list_ascii_of_string s).

(** The text [word0 run1 word1 ... runN wordN]. *)
Fixpoint spacedText (word : string) (more : list (string * string)) : string :=
  match more with
  | [] => word
  | (run, next) :: rest => word +:+ run +:+ spacedText next rest
  end.

(** The runs are maximal: no word between two runs is empty. *)
Fixpoint innerWordsNonEmpty (more : list (string * string)) : Prop :=
  match more with
  | [] => True
  | [_] => True
  | (_, next) :: rest => next ≠ EmptyString ∧ innerWordsNonEmpty rest
  end.

Module SampleRuntime.


(** An array with the header, to which the host then pushes a divider:
    the same array object with one element more. *)
Definition heapBefore : Runtime.Heap :=
  Runtime.mkHeap {[ 0 := [10] ]} {[ 10 := Sample.header ]}.

Definition heapAfter : Runtime.Heap :=
  Runtime.mkHeap {[ 0 := [10; 11] ]}
                 (<[ 11 := Sample.dots ]> {[ 10 := Sample.header ]}).

Definition props : Runtime.Props := Runtime.mkProps 0 None.

(** The cell a first render on [heapBefore] leaves. *)
Definition staleCell : Runtime.Memo := Runtime.mkMemo 0 developer [10].

(** Another heap with the same two elements under other references. *)
Definition heapCopy : Runtime.Heap :=
  Runtime.mkHeap {[ 5 := [1; 2] ]}
                 (<[ 2 := Sample.dots ]> {[ 1 := Sample.header ]}).

Definition propsCopy : Runtime.Props := Runtime.mkProps 5 (Some developer).

Definition freshCell : Runtime.Memo := Runtime.mkMemo 5 developer [1; 2].

End SampleRuntime.

(** * Properties *)

(** The map is looked up by evaluation only, never unfolded in a proof. *)
Opaque visibilityMap.

(** ** The visibility filter *)

Lemma includes_visibleIn (element : Element) (mode : ViewMode) :
  includes (allowedModes element) mode = true ↔ visibleIn mode element.
Proof.
  unfold includes, allowedModes, visibleIn.
  rewrite bool_decide_eq_true.
  destruct (visibilityMap !! type element) as [modes|]; [reflexivity|].
  split; [intros _; exact I|].
  intros _. destruct mode; repeat constructor.
Qed.

Lemma filteredElements_cons (element : Element) (elements : list Element)
    (mode : ViewMode) :
  filteredElements (element :: elements) mode =
    if includes (allowedModes element) mode
    then element :: filteredElements elements mode
    else filteredElements elements mode.
Proof. reflexivity. Qed.

Lemma filteredElements_app (l1 l2 : list Element) (mode : ViewMode) :
  filteredElements (l1 ++ l2) mode =
    filteredElements l1 mode ++ filteredElements l2 mode.
Proof. apply List.filter_app. Qed.

Lemma elem_of_filteredElements (element : Element) (elements : list Element)
    (mode : ViewMode) :
  element ∈ filteredElements elements mode
  ↔ element ∈ elements ∧ visibleIn mode element.
Proof.
  unfold filteredElements.
  rewrite !list_elem_of_In, List.filter_In, includes_visibleIn. done.
Qed.


(** At a kind of the element union the callback returns what the read of
    an own key gives. *)
Lemma isAllowed_typed (mode : ViewMode) (element : Element) :
  type element ∉ objectPrototypeMembers →
  Runtime.isAllowed mode element = Some (includes (allowedModes element) mode).
Proof.
  intros Hkind. unfold Runtime.isAllowed, Runtime.readVisibilityMap, allowedModes.
  destruct (visibilityMap !! type element); [reflexivity|].
  by rewrite bool_decide_eq_false_2.
Qed.

(** At a kind that names a member of [Object.prototype] it raises. *)
Lemma isAllowed_inherited (mode : ViewMode) (element : Element) :
  type element ∈ objectPrototypeMembers →
  Runtime.isAllowed mode element = None.
Proof.
  intros Hkind.
  assert (visibilityMap !! type element = None) as Hnone.
  { unfold objectPrototypeMembers in Hkind.
    repeat (apply elem_of_cons in Hkind as [-> | Hkind]);
      try (vm_compute; reflexivity).
    by apply elem_of_nil in Hkind. }
  unfold Runtime.isAllowed, Runtime.readVisibilityMap.
  by rewrite Hnone, bool_decide_eq_true_2.
Qed.

(** The filter returns exactly on the lists without such a kind, and then
    it returns the filter of the own keys. *)
Lemma runtime_filteredElements_typed (elements : list Element) (mode : ViewMode) :
  Forall (fun element => type element ∉ objectPrototypeMembers) elements →
  Runtime.filteredElements elements mode = Some (filteredElements elements mode).
Proof.
  unfold Runtime.filteredElements.
  induction 1 as [|x l Hx _ IH]; [reflexivity|].
  cbn [Runtime.arrayFilter]. rewrite (isAllowed_typed mode x Hx), IH.
  rewrite filteredElements_cons. reflexivity.
Qed.

Lemma runtime_filteredElements_Some (elements kept : list Element)
    (mode : ViewMode) :
  Runtime.filteredElements elements mode = Some kept →
  Forall (fun element => type element ∉ objectPrototypeMembers) elements
  ∧ kept = filteredElements elements mode.
Proof.
  revert kept. unfold Runtime.filteredElements.
  induction elements as [|x l IH]; intros kept Hrun.
  - split; [constructor|]. by injection Hrun as <-.
  - cbn [Runtime.arrayFilter] in Hrun.
    destruct (decide (type x ∈ objectPrototypeMembers)) as [Hin | Hnot].
    + by rewrite (isAllowed_inherited mode x Hin) in Hrun.
    + rewrite (isAllowed_typed mode x Hnot) in Hrun. cbn in Hrun.
      destruct (Runtime.arrayFilter (Runtime.isAllowed mode) l) as [kept'|];
        [|discriminate].
      destruct (IH kept' eq_refl) as [Hall ->].
      split; [by constructor|].
      cbn in Hrun. injection Hrun as <-. by rewrite filteredElements_cons.
Qed.


(** C6. Filtering what the filter returned, with the same mode, changes
    nothing. *)
Theorem filteredElements_idempotent (elements : list Element) (mode : ViewMode) :
  filteredElements (filteredElements elements mode) mode
  = filteredElements elements mode.
Proof.
  induction elements as [|x l IH]; [done|].
  rewrite filteredElements_cons.
  destruct (includes (allowedModes x) mode) eqn:Hx; [|done].
  rewrite filteredElements_cons, Hx. by f_equal.
Qed.

(** ** The grid of the tech-stack layout *)

#[local] Arguments Nat.modulo : simpl never.

Lemma succ_mod3 (n : nat) :
  S n mod 3 = if n mod 3 =? 2 then 0 else S (n mod 3).
Proof.
  pose proof (Nat.div_mod_eq n 3) as Hdiv.
  pose proof (Nat.mod_upper_bound n 3 ltac:(lia)) as Hlt.
  destruct (n mod 3 =? 2) eqn:E.
  - apply Nat.eqb_eq in E. symmetry.
    apply (Nat.mod_unique (S n) 3 (S (n / 3)) 0); lia.
  - apply Nat.eqb_neq in E. symmetry.
    apply (Nat.mod_unique (S n) 3 (n / 3) (S (n mod 3))); lia.
Qed.

Lemma gridInvariant_init : gridInvariant 0 [] [].
Proof.
  split; [done|]. split; [done|].
  exists [], []. split; [done|]. split; [constructor|]. by left.
Qed.

(** One call of the callback never reads a missing row, and keeps the
    invariant. *)
Lemma gridStep_invariant (index : nat) (seen : list string)
    (acc : list (list string)) (tech : string) :
  gridInvariant index seen acc →
  ∃ acc', gridStep acc tech index = Some acc'
          ∧ gridInvariant (S index) (seen ++ [tech]) acc'.
Proof.
  intros (Hlen & Hcat & full & open & -> & Hfull & Hopen).
  pose proof (succ_mod3 index) as Hsucc.
  unfold gridStep.
  destruct Hopen as [[-> Hmod] | (row & -> & Hrow & Hmod)].
  - rewrite Hmod in *. simpl in Hsucc. simpl.
    exists ((full ++ []) ++ [[tech]]). split; [done|].
    split; [rewrite length_app; simpl; lia|].
    split; [rewrite concat_app, Hcat; simpl; done|].
    exists full, [[tech]]. split; [by rewrite app_nil_r|].
    split; [done|]. right. exists [tech]. rewrite Hsucc. done.
  - destruct (index mod 3 =? 0) eqn:E0; [apply Nat.eqb_eq in E0; done|].
    assert (length (full ++ [row]) - 1 = length full) as ->
      by (rewrite length_app; simpl; lia).
    rewrite list_lookup_middle by done. simpl.
    assert (<[length full := row ++ [tech]]> (full ++ [row])
            = full ++ [row ++ [tech]]) as ->.
    { rewrite insert_app_r_alt by lia. by rewrite Nat.sub_diag. }
    eexists. split; [done|].
    split; [rewrite length_app; simpl; lia|].
    split.
    { rewrite concat_app in *. simpl in *. rewrite !app_nil_r in *.
      by rewrite <- Hcat, app_assoc. }
    destruct (index mod 3 =? 2) eqn:E2.
    + apply Nat.eqb_eq in E2.
      exists (full ++ [row ++ [tech]]), []. split; [by rewrite app_nil_r|].
      split; [|by left].
      apply Forall_app. split; [done|].
      constructor; [|constructor]. rewrite length_app. simpl. lia.
    + exists full, [row ++ [tech]]. split; [done|]. split; [done|].
      right. exists (row ++ [tech]). rewrite Hsucc.
      split; [done|]. split; [rewrite length_app; simpl; lia | lia].
Qed.

(** The whole reduction: it returns, and what it returns satisfies the
    invariant for all the technologies. *)
Lemma reduceFrom_gridStep (items : list string) :
  ∀ (index : nat) (seen : list string) (acc : list (list string)),
    gridInvariant index seen acc →
    ∃ grid, reduceFrom gridStep index acc items = Some grid
            ∧ gridInvariant (index + length items) (seen ++ items) grid.
Proof.
  induction items as [|tech items IH]; intros index seen acc Hinv.
  - exists acc. split; [done|].
    by rewrite Nat.add_0_r, app_nil_r.
  - destruct (gridStep_invariant index seen acc tech Hinv) as (acc' & Hstep & Hinv').
    destruct (IH _ _ _ Hinv') as (grid & Hred & Hgrid).
    exists grid. split.
    + simpl. rewrite Hstep. simpl. exact Hred.
    + simpl length. rewrite Nat.add_succ_r.
      by rewrite <- app_assoc in Hgrid.
Qed.

Lemma reduce_gridStep (technologies : list string) :
  ∃ grid, reduce gridStep [] technologies = Some grid
          ∧ gridInvariant (length technologies) technologies grid.
Proof.
  apply (reduceFrom_gridStep technologies 0 [] []), gridInvariant_init.
Qed.

(** The rows of a grid that satisfies the invariant: none is empty, none
    has more than three entries, and all before the last have three. *)
Lemma gridInvariant_rows (index : nat) (seen : list string)
    (grid : list (list string)) :
  gridInvariant index seen grid →
  Forall (fun row => 1 ≤ length row ≤ 3) grid
  ∧ ∀ i row, grid !! i = Some row → S i < length grid → length row = 3.
Proof.
  intros (_ & _ & full & open & -> & Hfull & Hopen).
  pose proof (Nat.mod_upper_bound index 3 ltac:(lia)) as Hlt.
  assert (∀ i row, full !! i = Some row → length row = 3) as Hlook.
  { intros i row Hi.
    exact (Forall_lookup_1 (fun row => length row = 3) full i row Hfull Hi). }
  split.
  - apply Forall_app. split.
    + eapply Forall_impl; [exact Hfull|]. simpl. lia.
    + destruct Hopen as [[-> _] | (row & -> & Hrow & Hmod)]; [constructor|].
      constructor; [lia | constructor].
  - intros i row Hi Hnotlast.
    destruct Hopen as [[-> _] | (last & -> & _ & _)].
    + rewrite app_nil_r in Hi. eauto.
    + rewrite length_app in Hnotlast. simpl in Hnotlast.
      rewrite lookup_app_l in Hi by lia. eauto.
Qed.

(** ** The markdown generator *)

Lemma append_nil_r (s : string) : s +:+ EmptyString = s.
Proof.
  induction s as [|c s IH]; [reflexivity|].
  change (String c (s +:+ EmptyString) = String c s). by rewrite IH.
Qed.

Lemma append_assoc (s1 s2 s3 : string) :
  (s1 +:+ s2) +:+ s3 = s1 +:+ (s2 +:+ s3).
Proof.
  induction s1 as [|c s1 IH]; [reflexivity|].
  change (String c ((s1 +:+ s2) +:+ s3) = String c (s1 +:+ (s2 +:+ s3))).
  by rewrite IH.
Qed.

Lemma join_empty_cons (x : string) (l : list string) :
  Text.join EmptyString (x :: l) = x +:+ Text.join EmptyString l.
Proof.
  destruct l as [|y l]; [|reflexivity].
  change (x = x +:+ EmptyString). by rewrite append_nil_r.
Qed.

Lemma join_empty_app (l1 l2 : list string) :
  Text.join EmptyString (l1 ++ l2)
  = Text.join EmptyString l1 +:+ Text.join EmptyString l2.
Proof.
  induction l1 as [|x l1 IH]; [done|].
  rewrite <- app_comm_cons, !join_empty_cons, IH. by rewrite append_assoc.
Qed.

(** The cases of the switch: split on every test of the generator and
    drop the branches whose tests contradict each other. *)
Ltac switch_cases :=
  unfold elementMarkdown; repeat (case_decide; try congruence).

(** The generator raises on no element. *)
Lemma elementMarkdown_total (toLowerCase : string → string) (element : Element) :
  elementMarkdown toLowerCase element
  = Some (default EmptyString (elementMarkdown toLowerCase element)).
Proof.
  switch_cases; try reflexivity.
  destruct (reduce_gridStep (technologies element)) as (grid & -> & _).
  reflexivity.
Qed.

Lemma mapM_total {A B : Type} (f : A → option B) (g : A → B) (l : list A) :
  (∀ x, f x = Some (g x)) → mapM f l = Some (map g l).
Proof.
  intros Hf. apply mapM_Some.
  induction l as [|x l IH]; constructor; [apply Hf | exact IH].
Qed.

Lemma generateMarkdown_total (toLowerCase : string → string)
    (elements : list Element) (mode : ViewMode) :
  generateMarkdown toLowerCase elements mode
  = Some (Text.join EmptyString
            (map (fun element =>
                    default EmptyString (elementMarkdown toLowerCase element))
                 (filteredElements elements mode))).
Proof.
  unfold generateMarkdown.
  rewrite (mapM_total _ _ _ (elementMarkdown_total toLowerCase)).
  reflexivity.
Qed.

(** The bytes of the characters written out in [Text]. *)
Example template_characters :
  String.list_byte_of_string Text.nl = [Byte.x0a]
  ∧ String.list_byte_of_string Text.dquote = [Byte.x22]
  ∧ String.list_byte_of_string Text.bullet = [Byte.xe2; Byte.x80; Byte.xa2]
  ∧ String.list_byte_of_string Text.star = [Byte.xe2; Byte.xad; Byte.x90]
  ∧ String.list_byte_of_string Text.zap = [Byte.xe2; Byte.x9a; Byte.xa1]
  ∧ String.list_byte_of_string Text.handshake
    = [Byte.xf0; Byte.x9f; Byte.xa4; Byte.x9d].
Proof. repeat split. Qed.

Example table_sample :
  elementMarkdown Text.asciiToLowerCase Sample.table
  = Some "| Command | Purpose |
| --- | --- |
| npm run dev | start the dev server |
| npm run build | build for production |

".
Proof. reflexivity. Qed.

Example techStack_sample :
  elementMarkdown Text.asciiToLowerCase Sample.techStack
  = Some ("## " +:+ Text.zap +:+ " Tech Stack

| | | |
|---|---|---|
| React | TypeScript | Vite |
| Tailwind | Radix | Zod |
| Vitest |

").
Proof. reflexivity. Qed.

Example filter_sample :
  filteredElements
    [Sample.header; Sample.usage; Sample.element "faq" "Questions";
     Sample.techStack; Sample.element "tech" "Stack"] recruiter
  = [Sample.header; Sample.techStack; Sample.element "tech" "Stack"].
Proof. vm_compute. reflexivity. Qed.

Lemma runtime_generateMarkdown_total (toLowerCase : string → string)
    (filtered : list Element) :
  Runtime.generateMarkdown toLowerCase filtered
  = Some (Text.join EmptyString
            (map (fun element =>
                    default EmptyString (elementMarkdown toLowerCase element))
                 filtered)).
Proof.
  unfold Runtime.generateMarkdown.
  rewrite (mapM_total _ _ _ (elementMarkdown_total toLowerCase)).
  reflexivity.
Qed.

Lemma elementMarkdown_default (toLowerCase : string → string)
    (element : Element) :
  type element ∉ handledKinds →
  elementMarkdown toLowerCase element = Some EmptyString.
Proof.
  intros Hkind. unfold elementMarkdown.
  repeat case_decide; try reflexivity; exfalso; apply Hkind;
    match goal with E : type element = _ |- _ => rewrite E end;
    compute_done.
Qed.

Lemma runtime_generateMarkdown_skip (toLowerCase : string → string)
    (element : Element) (before after : list Element) :
  elementMarkdown toLowerCase element = Some EmptyString →
  Runtime.generateMarkdown toLowerCase (before ++ element :: after)
  = Runtime.generateMarkdown toLowerCase (before ++ after).
Proof.
  intros Hempty. rewrite !runtime_generateMarkdown_total. f_equal.
  rewrite !map_app, !join_empty_app. simpl map.
  by rewrite join_empty_cons, Hempty.
Qed.

(** C2. An element whose kind the switch has no case for is mapped to the
    empty string: the generator returns on every filtered list (no
    error), and the element adds nothing to the concatenated markdown,
    neither in the generator nor, whenever the filter before it returns,
    in the markdown of the render. *)
Theorem unhandled_kind_yields_empty (toLowerCase : string → string)
    (element : Element) (Hkind : type element ∉ handledKinds) :
  elementMarkdown toLowerCase element = Some EmptyString
  ∧ (∀ before after : list Element,
       Runtime.generateMarkdown toLowerCase (before ++ element :: after)
       = Runtime.generateMarkdown toLowerCase (before ++ after)
       ∧ is_Some (Runtime.generateMarkdown toLowerCase
                    (before ++ element :: after)))
  ∧ (∀ (before after : list Element) (mode : ViewMode) (markdown : string),
       Runtime.markdownOf toLowerCase (before ++ element :: after) mode
       = Some markdown →
       Runtime.markdownOf toLowerCase (before ++ after) mode = Some markdown).
Proof.
  pose proof (elementMarkdown_default toLowerCase element Hkind) as Hempty.
  split; [exact Hempty|]. split.
  - intros before after. split.
    + by apply runtime_generateMarkdown_skip.
    + rewrite runtime_generateMarkdown_total. by eexists.
  - intros before after mode markdown. unfold Runtime.markdownOf.
    destruct (Runtime.filteredElements (before ++ element :: after) mode)
      as [kept|] eqn:Hrun; [|discriminate].
    apply runtime_filteredElements_Some in Hrun as [Hall ->].
    apply Forall_app in Hall as [Hbefore Hafter].
    apply Forall_cons in Hafter as [_ Hafter].
    rewrite (runtime_filteredElements_typed (before ++ after) mode)
      by (apply Forall_app; by split).
    cbn [mbind option_bind].
    rewrite !filteredElements_app, filteredElements_cons.
    destruct (includes (allowedModes element) mode); [|done].
    by rewrite runtime_generateMarkdown_skip.
Qed.

(** C8. A header element is rendered as [# ] followed by its content and
    a blank line. *)
Theorem header_markdown (toLowerCase : string → string) (element : Element)
    (Hkind : type element = "header") :
  elementMarkdown toLowerCase element
  = Some ("# " +:+ content element +:+ Text.nl +:+ Text.nl).
Proof. switch_cases. Qed.

(** C4. A divider whose style is [dots] is rendered as the centred line of
    three bullets, and one whose style is neither [dots] nor [stars] as
    the rule [---], each followed by a blank line. *)
Theorem divider_markdown (toLowerCase : string → string) (element : Element)
    (Hkind : type element = "divider") :
  (dividerStyle element = Some "dots" →
   elementMarkdown toLowerCase element
   = Some ("<div align=" +:+ Text.dquote +:+ "center" +:+ Text.dquote +:+ ">"
           +:+ Text.bullet +:+ " " +:+ Text.bullet +:+ " " +:+ Text.bullet
           +:+ "</div>" +:+ Text.nl +:+ Text.nl))
  ∧ (dividerStyle element ≠ Some "dots" →
     dividerStyle element ≠ Some "stars" →
     elementMarkdown toLowerCase element = Some ("---" +:+ Text.nl +:+ Text.nl)).
Proof. split; intros; switch_cases. Qed.

(** C5. A table is rendered as the row of its headers, then a separator
    row with one [---] per header, then its data rows in their order,
    each on a line, and a blank line. *)
Theorem table_markdown (toLowerCase : string → string) (element : Element)
    (Hkind : type element = "table") :
  ∃ dashes : list string,
    length dashes = length (headers element)
    ∧ Forall (fun cell => cell = "---") dashes
    ∧ elementMarkdown toLowerCase element
      = Some (tableRow (headers element) +:+ Text.nl
              +:+ tableRow dashes +:+ Text.nl
              +:+ Text.join Text.nl (map tableRow (rows element))
              +:+ Text.nl +:+ Text.nl).
Proof.
  exists (map (fun _ => "---") (headers element)).
  split; [apply length_map|]. split.
  - apply Forall_forall. intros cell Hin.
    apply list_elem_of_fmap in Hin as (? & -> & _). reflexivity.
  - switch_cases. reflexivity.
Qed.

(** C10. The grid layout of a tech-stack element (a layout that is neither
    [badges] nor [list]) puts the technologies, in their order, into rows
    of at most three, all but the last of exactly three, and renders one
    table row for each. *)
Theorem techStack_grid_rows (toLowerCase : string → string) (element : Element)
    (Hkind : type element = "tech-stack")
    (Hbadges : layout element ≠ Some "badges")
    (Hlist : layout element ≠ Some "list") :
  ∃ grid : list (list string),
    reduce gridStep [] (technologies element) = Some grid
    ∧ concat grid = technologies element
    ∧ Forall (fun row => 1 ≤ length row ≤ 3) grid
    ∧ (∀ i row, grid !! i = Some row → S i < length grid → length row = 3)
    ∧ elementMarkdown toLowerCase element
      = Some ("## " +:+ Text.zap +:+ " Tech Stack" +:+ Text.nl +:+ Text.nl
              +:+ "| | | |" +:+ Text.nl +:+ "|---|---|---|" +:+ Text.nl
              +:+ Text.join Text.nl (map tableRow grid)
              +:+ Text.nl +:+ Text.nl).
Proof.
  destruct (reduce_gridStep (technologies element)) as (grid & Hgrid & Hinv).
  destruct (gridInvariant_rows _ _ _ Hinv) as [Hsizes Hthree].
  exists grid. split; [exact Hgrid|].
  split; [apply Hinv|]. split; [exact Hsizes|]. split; [exact Hthree|].
  switch_cases. by rewrite Hgrid.
Qed.

(** C3. An element of kind [tech-stack] or [code-block], both of which the
    generator renders, has no entry in the visibility map and is kept by
    the filter in every view mode; the entries [tech] and [codeblock] of
    the map name kinds that the generator has no case for. *)
Theorem techStack_codeBlock_always_visible (toLowerCase : string → string)
    (element : Element) (mode : ViewMode)
    (Hkind : type element = "tech-stack" ∨ type element = "code-block") :
  type element ∈ handledKinds
  ∧ visibilityMap !! type element = None
  ∧ (∀ elements, element ∈ elements → element ∈ filteredElements elements mode)
  ∧ (∀ other, type other = "tech" ∨ type other = "codeblock" →
              is_Some (visibilityMap !! type other)
              ∧ (type other ∉ handledKinds)
              ∧ elementMarkdown toLowerCase other = Some EmptyString).
Proof.
  assert (visibilityMap !! type element = None) as Hnone.
  { destruct Hkind as [-> | ->]; vm_compute; reflexivity. }
  split; [|split; [exact Hnone|split]].
  - destruct Hkind as [-> | ->]; compute_done.
  - intros elements Hin. apply elem_of_filteredElements.
    split; [exact Hin|]. unfold visibleIn. by rewrite Hnone.
  - intros other Hother.
    assert (type other ∉ handledKinds) as Hnot.
    { destruct Hother as [-> | ->]; compute_done. }
    split; [|split; [exact Hnot|]].
    + destruct Hother as [-> | ->]; vm_compute; eexists; reflexivity.
    + unfold elementMarkdown.
      repeat case_decide; try reflexivity; exfalso; apply Hnot;
        match goal with E : type other = _ |- _ => rewrite E end;
        compute_done.
Qed.

(** ** The actions *)

(** Running a script step by step. *)
Lemma bind_run {A B : Type} (m : Script A) (f : A → Script B)
    (b b1 : Browser) (x : A) (r : option (B * Browser)) :
  m b = Some (x, b1) → f x b1 = r → (m ≫= f) b = r.
Proof. intros Hm Hf. unfold mbind, Script_bind. by rewrite Hm. Qed.

Lemma createObjectURL_run (blob : Blob) (b : Browser) :
  URL.createObjectURL blob b
  = Some (nextURL b,
          mkBrowser (clipboard b) (<[nextURL b := blob]> (objectURLs b))
            (S (nextURL b)) (nodes b) (nextNode b) (body b) (saved b)).
Proof. reflexivity. Qed.

Lemma revokeObjectURL_run (url : nat) (b : Browser) :
  URL.revokeObjectURL url b
  = Some (tt, mkBrowser (clipboard b) (delete url (objectURLs b))
                (nextURL b) (nodes b) (nextNode b) (body b) (saved b)).
Proof. reflexivity. Qed.

Lemma createElement_a_run (b : Browser) :
  Document.createElement_a b
  = Some (nextNode b,
          mkBrowser (clipboard b) (objectURLs b) (nextURL b)
            (<[nextNode b := mkAnchor None None]> (nodes b))
            (S (nextNode b)) (body b) (saved b)).
Proof. reflexivity. Qed.

Lemma appendChild_run (a : nat) (b : Browser) :
  Document.appendChild a b
  = Some (tt, mkBrowser (clipboard b) (objectURLs b) (nextURL b) (nodes b)
                (nextNode b)
                (List.filter (fun n => negb (n =? a)) (body b) ++ [a])
                (saved b)).
Proof. reflexivity. Qed.

Lemma updateNode_run (a : nat) (f : Anchor → Anchor) (b : Browser) (node : Anchor) :
  nodes b !! a = Some node →
  Document.updateNode a f b
  = Some (tt, mkBrowser (clipboard b) (objectURLs b) (nextURL b)
                (<[a := f node]> (nodes b)) (nextNode b) (body b) (saved b)).
Proof.
  intros Hnode. unfold Document.updateNode.
  eapply bind_run; [reflexivity|]. by rewrite Hnode.
Qed.

Lemma click_run (a url : nat) (b : Browser) (node : Anchor) (name : string)
    (blob : Blob) :
  nodes b !! a = Some node →
  download node = Some name →
  href node = Some url →
  objectURLs b !! url = Some blob →
  Document.click a b
  = Some (tt, mkBrowser (clipboard b) (objectURLs b) (nextURL b) (nodes b)
                (nextNode b) (body b)
                (saved b ++ [mkSavedFile name (blobType blob)
                               (Text.join EmptyString (blobParts blob))])).
Proof.
  intros Hnode Hname Hhref Hblob. unfold Document.click.
  eapply bind_run; [reflexivity|].
  rewrite Hnode, Hname, Hhref. simpl. by rewrite Hblob.
Qed.

Lemma removeChild_run (a : nat) (b : Browser) :
  a ∈ body b →
  Document.removeChild a b
  = Some (tt, mkBrowser (clipboard b) (objectURLs b) (nextURL b) (nodes b)
                (nextNode b) (List.filter (fun n => negb (n =? a)) (body b))
                (saved b)).
Proof.
  intros Hin. unfold Document.removeChild.
  eapply bind_run; [reflexivity|]. by rewrite bool_decide_eq_true_2.
Qed.

(** Run the next step of a script with the lemma that gives its result. *)
Ltac script_step lem :=
  eapply bind_run;
  [ lem | cbn [clipboard objectURLs nextURL nodes nextNode body saved] ].

(** C9. The download action always writes one file: its contents are
    exactly the generated markdown, its name is [README.md] and its MIME
    type is [text/markdown], whatever the elements and the view mode. *)
Theorem downloadMarkdown_saves_README (toLowerCase : string → string)
    (props : ReadmePreviewProps) (browser : Browser) :
  ∃ (markdown : string) (browser' : Browser),
    markdownOf toLowerCase props = Some markdown
    ∧ downloadMarkdown toLowerCase props browser = Some (tt, browser')
    ∧ saved browser'
      = saved browser ++ [mkSavedFile "README.md" "text/markdown" markdown]
    ∧ clipboard browser' = clipboard browser.
Proof.
  unfold downloadMarkdown, markdownOf.
  rewrite generateMarkdown_total.
  eexists. eexists. split; [reflexivity|]. split.
  - script_step ltac:(reflexivity).
    script_step ltac:(apply createObjectURL_run).
    script_step ltac:(apply createElement_a_run).
    script_step ltac:(apply updateNode_run; cbn [nodes]; apply lookup_insert_eq).
    script_step ltac:(apply updateNode_run; cbn [nodes]; apply lookup_insert_eq).
    script_step ltac:(apply appendChild_run).
    script_step ltac:(eapply click_run; cbn [nodes objectURLs href download];
                      [ apply lookup_insert_eq | reflexivity | reflexivity
                      | apply lookup_insert_eq ]).
    script_step ltac:(apply removeChild_run; cbn [body];
                      apply elem_of_app; right; by left).
    apply revokeObjectURL_run.
  - cbn [clipboard saved blobType blobParts Text.join]. split; reflexivity.
Qed.

Lemma copyToClipboard_run (toLowerCase : string → string)
    (props : ReadmePreviewProps) (hooks : Hooks) (b : Browser) (markdown : string) :
  markdownOf toLowerCase props = Some markdown →
  copyToClipboard toLowerCase props hooks true b
  = Some (mkHooks true (theme hooks) (prefersDark hooks),
          mkBrowser (Some markdown) (objectURLs b) (nextURL b) (nodes b)
            (nextNode b) (body b) (saved b)).
Proof.
  intros Hmd. unfold copyToClipboard. rewrite Hmd.
  script_step ltac:(reflexivity).
  script_step ltac:(reflexivity).
  reflexivity.
Qed.

Lemma copyToClipboard_rejected (toLowerCase : string → string)
    (props : ReadmePreviewProps) (hooks : Hooks) (b : Browser) :
  copyToClipboard toLowerCase props hooks false b = None.
Proof.
  unfold copyToClipboard.
  destruct (markdownOf toLowerCase props); reflexivity.
Qed.

(** ** The memoised filter *)

Lemma useMemo_up_to_date (heap : Runtime.Heap) (props : Runtime.Props)
    (memo : option Runtime.Memo) :
  memoUpToDate heap props memo →
  Runtime.useMemo heap memo props = Runtime.computeFiltered heap props.
Proof.
  destruct memo as [cell|]; [|reflexivity].
  intros Hfresh. cbn [Runtime.useMemo].
  case_bool_decide as Hdeps; [|reflexivity].
  destruct Hdeps as [Hel Hmode]. symmetry. by apply Hfresh.
Qed.

Lemma isAllowedAt_lookup (heap : Runtime.Heap) (mode : ViewMode) (ref : nat)
    (element : Element) :
  Runtime.objects heap !! ref = Some element →
  Runtime.isAllowedAt heap mode ref = Runtime.isAllowed mode element.
Proof. intros Href. unfold Runtime.isAllowedAt. by rewrite Href. Qed.

(** Filtering the references is filtering the elements they refer to. *)
Lemma arrayFilter_refs (heap : Runtime.Heap) (mode : ViewMode)
    (refs : list nat) (els : list Element) :
  Forall2 (fun ref element => Runtime.objects heap !! ref = Some element)
          refs els →
  match Runtime.arrayFilter (Runtime.isAllowedAt heap mode) refs with
  | Some keptRefs =>
      ∃ kept, Runtime.arrayFilter (Runtime.isAllowed mode) els = Some kept
              ∧ Forall2 (fun ref element =>
                           Runtime.objects heap !! ref = Some element)
                        keptRefs kept
  | None => Runtime.arrayFilter (Runtime.isAllowed mode) els = None
  end.
Proof.
  induction 1 as [|ref element refs els Href _ IH].
  - exists []. split; [reflexivity | constructor].
  - cbn [Runtime.arrayFilter].
    rewrite (isAllowedAt_lookup heap mode ref element Href).
    destruct (Runtime.isAllowed mode element) as [keep|]; [|reflexivity].
    cbn [mbind option_bind].
    destruct (Runtime.arrayFilter (Runtime.isAllowedAt heap mode) refs)
      as [keptRefs|].
    + destruct IH as (kept & -> & Hkept). cbn [mbind option_bind].
      destruct keep; eexists; (split; [reflexivity|]);
        [by constructor | exact Hkept].
    + rewrite IH. reflexivity.
Qed.

(** A computation of the hook followed by the generator is the markdown of
    the element list the props refer to. *)
Lemma computed_markdown (toLowerCase : string → string)
    (heap : Runtime.Heap) (props : Runtime.Props) (els : list Element) :
  Runtime.elementList heap props = Some els →
  Runtime.computeFiltered heap props
    ≫= Runtime.generateMarkdownAt toLowerCase heap
  = Runtime.markdownOf toLowerCase els (Runtime.viewModeOf props).
Proof.
  unfold Runtime.elementList, Runtime.computeFiltered.
  destruct (Runtime.arrays heap !! Runtime.elements props) as [refs|];
    [|discriminate].
  cbn [mbind option_bind]. intros Hels. apply mapM_Some_1 in Hels.
  pose proof (arrayFilter_refs heap (Runtime.viewModeOf props) refs els Hels)
    as Hfilter.
  unfold Runtime.markdownOf, Runtime.filteredElements.
  destruct (Runtime.arrayFilter
              (Runtime.isAllowedAt heap (Runtime.viewModeOf props)) refs)
    as [keptRefs|].
  - destruct Hfilter as (kept & -> & Hkept). cbn [mbind option_bind].
    unfold Runtime.generateMarkdownAt. cbn [Runtime.memoValue].
    by rewrite (mapM_Some_2 _ _ _ Hkept).
  - by rewrite Hfilter.
Qed.

Lemma render_markdown (toLowerCase : string → string)
    (heap : Runtime.Heap) (memo : option Runtime.Memo) (props : Runtime.Props) :
  snd <$> Runtime.render toLowerCase heap memo props
  = Runtime.useMemo heap memo props
      ≫= Runtime.generateMarkdownAt toLowerCase heap.
Proof.
  unfold Runtime.render.
  destruct (Runtime.useMemo heap memo props) as [cell|]; [|reflexivity].
  cbn [mbind option_bind].
  destruct (Runtime.generateMarkdownAt toLowerCase heap cell); reflexivity.
Qed.

(** C7 (as amended). The markdown a render shows is a function of the
    element list and the view mode whenever the cell of [useMemo] is up
    to date: two renders, on whatever heaps and with whatever cells of
    that sort, whose props refer to the same list of elements and the
    same mode show the same markdown, that of the list; the render leaves
    an up-to-date cell behind; and it returns if no kind of the list names
    a member of [Object.prototype]. *)
Theorem markdown_function_of_list_and_mode (toLowerCase : string → string)
    (heap1 heap2 : Runtime.Heap) (props1 props2 : Runtime.Props)
    (memo1 memo2 : option Runtime.Memo) (els : list Element)
    (Hlist1 : Runtime.elementList heap1 props1 = Some els)
    (Hlist2 : Runtime.elementList heap2 props2 = Some els)
    (Hmode : Runtime.viewModeOf props1 = Runtime.viewModeOf props2)
    (Hmemo1 : memoUpToDate heap1 props1 memo1)
    (Hmemo2 : memoUpToDate heap2 props2 memo2) :
  snd <$> Runtime.render toLowerCase heap1 memo1 props1
  = Runtime.markdownOf toLowerCase els (Runtime.viewModeOf props1)
  ∧ snd <$> Runtime.render toLowerCase heap1 memo1 props1
    = snd <$> Runtime.render toLowerCase heap2 memo2 props2
  ∧ (∀ cell markdown,
       Runtime.render toLowerCase heap1 memo1 props1 = Some (cell, markdown) →
       memoUpToDate heap1 props1 (Some cell))
  ∧ (Forall (fun element => type element ∉ objectPrototypeMembers) els →
     is_Some (Runtime.render toLowerCase heap1 memo1 props1)).
Proof.
  assert (snd <$> Runtime.render toLowerCase heap1 memo1 props1
          = Runtime.markdownOf toLowerCase els (Runtime.viewModeOf props1))
    as Hfirst.
  { rewrite render_markdown, (useMemo_up_to_date _ _ _ Hmemo1).
    by apply computed_markdown. }
  split; [exact Hfirst|]. split; [|split].
  - rewrite Hfirst, Hmode.
    rewrite render_markdown, (useMemo_up_to_date _ _ _ Hmemo2).
    symmetry. by apply computed_markdown.
  - intros cell markdown Hrender _ _.
    unfold Runtime.render in Hrender.
    rewrite (useMemo_up_to_date _ _ _ Hmemo1) in Hrender.
    destruct (Runtime.computeFiltered heap1 props1) as [cell'|];
      [|discriminate].
    cbn [mbind option_bind] in Hrender.
    destruct (Runtime.generateMarkdownAt toLowerCase heap1 cell');
      [|discriminate].
    by injection Hrender as -> _.
  - intros Hkinds.
    assert (is_Some (snd <$> Runtime.render toLowerCase heap1 memo1 props1))
      as Hsome.
    { rewrite Hfirst. unfold Runtime.markdownOf.
      rewrite (runtime_filteredElements_typed _ _ Hkinds).
      cbn [mbind option_bind].
      rewrite runtime_generateMarkdown_total. by eexists. }
    destruct (Runtime.render toLowerCase heap1 memo1 props1);
      [by eexists | by destruct Hsome].
Qed.

(** * The theorems at sample inputs *)

Lemma unhandled_kind_yields_empty_witness :
  (type Sample.usage ∉ handledKinds)
  ∧ elementMarkdown Text.asciiToLowerCase Sample.usage = Some EmptyString
  ∧ Runtime.generateMarkdown Text.asciiToLowerCase
      ([Sample.header] ++ Sample.usage :: [Sample.dots])
    = Runtime.generateMarkdown Text.asciiToLowerCase
        ([Sample.header] ++ [Sample.dots]).
Proof.
  assert (type Sample.usage ∉ handledKinds) as Hkind by compute_done.
  split; [exact Hkind|].
  destruct (unhandled_kind_yields_empty Text.asciiToLowerCase Sample.usage Hkind)
    as (Hempty & Hjoin & _).
  split; [exact Hempty|].
  exact (proj1 (Hjoin [Sample.header] [Sample.dots])).
Defined.

Lemma header_markdown_witness :
  type Sample.header = "header"
  ∧ elementMarkdown Text.asciiToLowerCase Sample.header
    = Some ("# README Design Kit" +:+ Text.nl +:+ Text.nl).
Proof.
  split; [reflexivity|].
  apply (header_markdown Text.asciiToLowerCase Sample.header). reflexivity.
Defined.

Lemma divider_markdown_witness :
  type Sample.dots = "divider"
  ∧ dividerStyle Sample.dots = Some "dots"
  ∧ elementMarkdown Text.asciiToLowerCase Sample.dots
    = Some ("<div align=" +:+ Text.dquote +:+ "center" +:+ Text.dquote +:+ ">"
            +:+ Text.bullet +:+ " " +:+ Text.bullet +:+ " " +:+ Text.bullet
            +:+ "</div>" +:+ Text.nl +:+ Text.nl)
  ∧ elementMarkdown Text.asciiToLowerCase Sample.line
    = Some ("---" +:+ Text.nl +:+ Text.nl).
Proof.
  split; [reflexivity|]. split; [reflexivity|]. split.
  - apply (divider_markdown Text.asciiToLowerCase Sample.dots); reflexivity.
  - apply (divider_markdown Text.asciiToLowerCase Sample.line);
      [reflexivity | discriminate | discriminate].
Defined.

Lemma table_markdown_witness :
  type Sample.table = "table"
  ∧ ∃ dashes : list string,
      length dashes = 2
      ∧ Forall (fun cell => cell = "---") dashes
      ∧ elementMarkdown Text.asciiToLowerCase Sample.table
        = Some (tableRow ["Command"; "Purpose"] +:+ Text.nl
                +:+ tableRow dashes +:+ Text.nl
                +:+ Text.join Text.nl
                      (map tableRow (rows Sample.table))
                +:+ Text.nl +:+ Text.nl).
Proof.
  split; [reflexivity|].
  apply (table_markdown Text.asciiToLowerCase Sample.table). reflexivity.
Defined.

Lemma techStack_grid_rows_witness :
  type Sample.techStack = "tech-stack"
  ∧ layout Sample.techStack ≠ Some "badges"
  ∧ layout Sample.techStack ≠ Some "list"
  ∧ ∃ grid : list (list string),
      reduce gridStep [] (technologies Sample.techStack) = Some grid
      ∧ concat grid = technologies Sample.techStack
      ∧ Forall (fun row => 1 ≤ length row ≤ 3) grid
      ∧ (∀ i row, grid !! i = Some row → S i < length grid → length row = 3)
      ∧ elementMarkdown Text.asciiToLowerCase Sample.techStack
        = Some ("## " +:+ Text.zap +:+ " Tech Stack" +:+ Text.nl +:+ Text.nl
                +:+ "| | | |" +:+ Text.nl +:+ "|---|---|---|" +:+ Text.nl
                +:+ Text.join Text.nl (map tableRow grid)
                +:+ Text.nl +:+ Text.nl).
Proof.
  split; [reflexivity|]. split; [discriminate|]. split; [discriminate|].
  apply (techStack_grid_rows Text.asciiToLowerCase Sample.techStack);
    [reflexivity | discriminate | discriminate].
Defined.

Lemma techStack_codeBlock_always_visible_witness :
  (type Sample.techStack = "tech-stack" ∨ type Sample.techStack = "code-block")
  ∧ visibilityMap !! type Sample.techStack = None
  ∧ Sample.techStack ∈ filteredElements (elements Sample.props) client.
Proof.
  split; [by left|].
  destruct (techStack_codeBlock_always_visible Text.asciiToLowerCase
              Sample.techStack client (or_introl eq_refl))
    as (_ & Hnone & Hkept & _).
  split; [exact Hnone|]. apply Hkept. compute_done.
Defined.

Lemma markdown_function_of_list_and_mode_witness :
  Runtime.elementList SampleRuntime.heapAfter SampleRuntime.props
  = Some [Sample.header; Sample.dots]
  ∧ Runtime.elementList SampleRuntime.heapCopy SampleRuntime.propsCopy
    = Some [Sample.header; Sample.dots]
  ∧ memoUpToDate SampleRuntime.heapAfter SampleRuntime.props None
  ∧ memoUpToDate SampleRuntime.heapCopy SampleRuntime.propsCopy
      (Some SampleRuntime.freshCell)
  ∧ snd <$> Runtime.render Text.asciiToLowerCase SampleRuntime.heapAfter None
              SampleRuntime.props
    = snd <$> Runtime.render Text.asciiToLowerCase SampleRuntime.heapCopy
                (Some SampleRuntime.freshCell) SampleRuntime.propsCopy.
Proof.
  assert (Runtime.elementList SampleRuntime.heapAfter SampleRuntime.props
          = Some [Sample.header; Sample.dots]) as Hlist1
    by (vm_compute; reflexivity).
  assert (Runtime.elementList SampleRuntime.heapCopy SampleRuntime.propsCopy
          = Some [Sample.header; Sample.dots]) as Hlist2
    by (vm_compute; reflexivity).
  assert (memoUpToDate SampleRuntime.heapAfter SampleRuntime.props None)
    as Hmemo1 by exact I.
  assert (memoUpToDate SampleRuntime.heapCopy SampleRuntime.propsCopy
            (Some SampleRuntime.freshCell)) as Hmemo2
    by (intros _ _; vm_compute; reflexivity).
  split; [exact Hlist1|]. split; [exact Hlist2|].
  split; [exact Hmemo1|]. split; [exact Hmemo2|].
  exact (proj1 (proj2 (markdown_function_of_list_and_mode Text.asciiToLowerCase
                         SampleRuntime.heapAfter SampleRuntime.heapCopy
                         SampleRuntime.props SampleRuntime.propsCopy
                         None (Some SampleRuntime.freshCell)
                         [Sample.header; Sample.dots]
                         Hlist1 Hlist2 eq_refl Hmemo1 Hmemo2))).
Defined.

(** * Further properties of the component *)

(** ** How the generator composes *)

(** X1. The markdown of a concatenation of element lists is the concatenation
    of their markdowns; the generator raises on neither, and the markdown
    of no elements is empty. *)
Theorem generateMarkdown_app (toLowerCase : string → string)
    (l1 l2 : list Element) (mode : ViewMode) :
  generateMarkdown toLowerCase [] mode = Some EmptyString
  ∧ ∃ m1 m2 : string,
      generateMarkdown toLowerCase l1 mode = Some m1
      ∧ generateMarkdown toLowerCase l2 mode = Some m2
      ∧ generateMarkdown toLowerCase (l1 ++ l2) mode = Some (m1 +:+ m2).
Proof.
  split; [reflexivity|].
  rewrite !generateMarkdown_total. do 2 eexists.
  split; [reflexivity|]. split; [reflexivity|].
  by rewrite filteredElements_app, map_app, join_empty_app.
Qed.

(** X2. An element that is not visible in the view mode leaves no trace in the
    markdown: the generator reads the filtered list, not the props. *)
Theorem hidden_element_contributes_nothing (toLowerCase : string → string)
    (element : Element) (before after : list Element) (mode : ViewMode)
    (Hhidden : ¬ visibleIn mode element) :
  generateMarkdown toLowerCase (before ++ element :: after) mode
  = generateMarkdown toLowerCase (before ++ after) mode.
Proof.
  rewrite !generateMarkdown_total.
  rewrite !filteredElements_app, filteredElements_cons.
  destruct (includes (allowedModes element) mode) eqn:Hin; [|done].
  by apply includes_visibleIn in Hin.
Qed.

(** Evaluate the lookups of the visibility map at the literal keys. *)
Ltac eval_visibility :=
  repeat match goal with
  | |- context [visibilityMap !! ?k] =>
      let v := eval vm_compute in (visibilityMap !! k) in
      replace (visibilityMap !! k) with v by (vm_compute; reflexivity)
  end.

(** X3. Of the kinds the generator renders, the filter hides only two: an
    [installation] element outside the developer mode, and a [banner]
    element in the developer mode. *)
Theorem rendered_kinds_hidden (element : Element) (mode : ViewMode)
    (Hkind : type element ∈ handledKinds) :
  includes (allowedModes element) mode = false
  ↔ (type element = "installation" ∧ mode ≠ developer)
    ∨ (type element = "banner" ∧ mode = developer).
Proof.
  unfold includes, allowedModes, handledKinds in *.
  repeat (apply elem_of_cons in Hkind as [Hkind | Hkind]);
    [.. | by apply elem_of_nil in Hkind];
    rewrite Hkind; eval_visibility; destruct mode; compute_done.
Qed.


(** ** The shape of a block *)

Lemma endsWithBlankLine_base : endsWithBlankLine (Text.nl +:+ Text.nl).
Proof. by exists EmptyString. Qed.

Lemma endsWithBlankLine_app (prefix s : string) :
  endsWithBlankLine s → endsWithBlankLine (prefix +:+ s).
Proof.
  intros [block ->]. exists (prefix +:+ block). by rewrite append_assoc.
Qed.

Lemma endsWithBlankLine_nonempty (s : string) :
  endsWithBlankLine s → s ≠ EmptyString.
Proof. intros [[|c block] ->]; discriminate. Qed.

Lemma elementMarkdown_handled (toLowerCase : string → string)
    (element : Element) :
  type element ∈ handledKinds →
  ∃ markdown : string,
    elementMarkdown toLowerCase element = Some markdown
    ∧ endsWithBlankLine markdown.
Proof.
  intros Hkind.
  destruct (reduce_gridStep (technologies element)) as (grid & Hgrid & _).
  unfold elementMarkdown. rewrite Hgrid.
  repeat case_decide;
    try (eexists; split; [reflexivity|];
         repeat first [ apply endsWithBlankLine_base
                      | apply endsWithBlankLine_app ]).
  exfalso. unfold handledKinds in Hkind.
  repeat (apply elem_of_cons in Hkind as [Hkind | Hkind]); try done.
  by apply elem_of_nil in Hkind.
Qed.

Lemma elementMarkdown_unhandled (toLowerCase : string → string)
    (element : Element) :
  type element ∉ handledKinds →
  elementMarkdown toLowerCase element = Some EmptyString.
Proof.
  intros Hkind. unfold elementMarkdown.
  repeat case_decide; try reflexivity; exfalso; apply Hkind;
    match goal with E : type element = _ |- _ => rewrite E end;
    compute_done.
Qed.

(** X5. Every element of a kind the generator renders becomes a block that is
    not empty and ends with a blank line, so that consecutive blocks stay
    apart. *)
Theorem rendered_block_ends_with_blank_line (toLowerCase : string → string)
    (element : Element) (Hkind : type element ∈ handledKinds) :
  ∃ markdown : string,
    elementMarkdown toLowerCase element = Some markdown
    ∧ endsWithBlankLine markdown
    ∧ markdown ≠ EmptyString.
Proof.
  destruct (elementMarkdown_handled toLowerCase element Hkind)
    as (markdown & Hmd & Hblank).
  exists markdown. split; [exact Hmd|]. split; [exact Hblank|].
  by apply endsWithBlankLine_nonempty.
Qed.

Lemma append_empty_iff (s1 s2 : string) :
  s1 +:+ s2 = EmptyString ↔ s1 = EmptyString ∧ s2 = EmptyString.
Proof.
  split; [|by intros [-> ->]].
  destruct s1 as [|c s1]; [|discriminate].
  intros H. split; [reflexivity | exact H].
Qed.

Lemma join_empty_iff (parts : list string) :
  Text.join EmptyString parts = EmptyString
  ↔ Forall (fun part => part = EmptyString) parts.
Proof.
  induction parts as [|part parts IH].
  - split; [constructor | reflexivity].
  - rewrite join_empty_cons, append_empty_iff, IH, Forall_cons. done.
Qed.

(** X6. The generated markdown is empty exactly when no visible element is of
    a kind the generator renders: then the buttons may be enabled and
    still export nothing. *)
Theorem markdown_empty_iff (toLowerCase : string → string)
    (elements : list Element) (mode : ViewMode) :
  generateMarkdown toLowerCase elements mode = Some EmptyString
  ↔ ∀ element, element ∈ elements → visibleIn mode element →
               type element ∉ handledKinds.
Proof.
  rewrite generateMarkdown_total.
  split.
  - intros Hempty element Hin Hvis Hkind.
    assert (Text.join EmptyString
              (map (fun element =>
                      default EmptyString (elementMarkdown toLowerCase element))
                   (filteredElements elements mode)) = EmptyString) as Hjoin
      by congruence.
    apply join_empty_iff in Hjoin.
    rewrite Forall_forall in Hjoin.
    destruct (elementMarkdown_handled toLowerCase element Hkind)
      as (markdown & Hmd & Hblank).
    apply endsWithBlankLine_nonempty in Hblank. apply Hblank.
    rewrite <- (Hjoin (default EmptyString (elementMarkdown toLowerCase element))).
    + by rewrite Hmd.
    + apply list_elem_of_fmap. exists element. split; [done|].
      by apply elem_of_filteredElements.
  - intros Hnone. f_equal. apply join_empty_iff, Forall_forall.
    intros part Hpart.
    apply list_elem_of_fmap in Hpart as (element & -> & Hin).
    apply elem_of_filteredElements in Hin as [Hin Hvis].
    by rewrite (elementMarkdown_unhandled toLowerCase element (Hnone _ Hin Hvis)).
Qed.

(** X7. The markdown of a render is the markdown of the elements its preview
    shows: generating from the filtered list filters nothing more. *)
Theorem markdown_of_preview (toLowerCase : string → string)
    (props : ReadmePreviewProps) (hooks : Hooks) :
  generateMarkdown toLowerCase
    (previewElements (render toLowerCase props hooks)) (viewModeOf props)
  = markdownCode (render toLowerCase props hooks).
Proof.
  cbn [render previewElements markdownCode]. unfold markdownOf.
  rewrite !generateMarkdown_total. f_equal. f_equal. f_equal.
  induction (elements props) as [|x l IH]; [done|].
  rewrite filteredElements_cons.
  destruct (includes (allowedModes x) (viewModeOf props)) eqn:Hx; [|done].
  rewrite filteredElements_cons, Hx. by f_equal.
Qed.

(** X8. No entry of the visibility map is empty: every element whose kind
    does not name a member of [Object.prototype] is kept by the filter in
    at least one view mode, in every list on which the filter returns. *)
Theorem every_element_visible_somewhere (element : Element)
    (Hkind : type element ∉ objectPrototypeMembers) :
  ∃ mode : ViewMode,
    Runtime.isAllowed mode element = Some true
    ∧ ∀ elements kept,
        Runtime.filteredElements elements mode = Some kept →
        element ∈ elements → element ∈ kept.
Proof.
  assert (∃ mode, visibleIn mode element) as [mode Hvis].
  { unfold visibleIn.
    destruct (visibilityMap !! type element) as [modes|] eqn:Hlook;
      [|by exists developer].
    assert (Forall (fun entry => entry.2 ≠ []) visibilityEntries) as Hall
      by compute_done.
    rewrite Forall_forall in Hall.
    assert ((type element, modes) ∈ visibilityEntries) as Hentry.
    { with_strategy transparent [visibilityMap]
        (unfold visibilityMap in Hlook).
      by apply elem_of_list_to_map_2 in Hlook. }
    apply Hall in Hentry. simpl in Hentry.
    destruct modes as [|mode modes]; [done|]. exists mode. by left. }
  exists mode. split.
  - rewrite (isAllowed_typed mode element Hkind). f_equal.
    by apply includes_visibleIn.
  - intros elements kept Hrun Hin.
    apply runtime_filteredElements_Some in Hrun as [_ ->].
    by apply elem_of_filteredElements.
Qed.

(** ** Where the grid puts a technology *)

#[local] Arguments Nat.div : simpl never.

Lemma divmod3_unique (k q r : nat) :
  r < 3 → k = 3 * q + r → k / 3 = q ∧ k mod 3 = r.
Proof.
  intros Hr Hk. split; symmetry.
  - by apply (Nat.div_unique k 3 q r).
  - by apply (Nat.mod_unique k 3 q r).
Qed.

Lemma length_concat_full (full : list (list string)) :
  Forall (fun row => length row = 3) full →
  length (concat full) = 3 * length full.
Proof.
  induction 1 as [|row full Hrow _ IH]; [done|].
  simpl. rewrite length_app, IH, Hrow. lia.
Qed.

(** In rows of three, the item [k] of the concatenation is the item
    [k mod 3] of the row [k / 3]. *)
Lemma lookup_concat_full (full : list (list string)) (rest : list string) :
  Forall (fun row => length row = 3) full →
  ∀ (k : nat) (x : string),
    k < 3 * length full →
    (concat full ++ rest) !! k = Some x →
    ∃ row, full !! (k / 3) = Some row ∧ row !! (k mod 3) = Some x.
Proof.
  induction 1 as [|row full Hrow _ IH]; intros k x Hk Hx.
  - simpl in Hk. lia.
  - simpl in Hx. rewrite <- app_assoc in Hx.
    destruct (decide (k < 3)) as [Hlt | Hge].
    + destruct (divmod3_unique k 0 k Hlt ltac:(lia)) as [-> ->].
      exists row. split; [done|].
      by rewrite lookup_app_l in Hx by lia.
    + rewrite lookup_app_r in Hx by lia. rewrite Hrow in Hx.
      simpl in Hk.
      destruct (IH (k - 3) x ltac:(lia) Hx) as (row' & Hrow' & Hx').
      pose proof (Nat.div_mod_eq (k - 3) 3) as Hdiv.
      pose proof (Nat.mod_upper_bound (k - 3) 3 ltac:(lia)) as Hmod.
      destruct (divmod3_unique k (S ((k - 3) / 3)) ((k - 3) mod 3) Hmod
                  ltac:(lia)) as [-> ->].
      exists row'. by split.
Qed.

(** X9. The grid of the tech-stack layout has one row for every three
    technologies, rounded up, and the technology at index [k] is the entry
    [k mod 3] of the row [k / 3]. *)
Theorem techStack_grid_placement (technologies : list string) :
  ∃ grid : list (list string),
    reduce gridStep [] technologies = Some grid
    ∧ length grid = (length technologies + 2) / 3
    ∧ ∀ (k : nat) (tech : string),
        technologies !! k = Some tech →
        ∃ row, grid !! (k / 3) = Some row ∧ row !! (k mod 3) = Some tech.
Proof.
  destruct (reduce_gridStep technologies)
    as (grid & Hgrid & Hlen & Hcat & full & open & -> & Hfull & Hopen).
  exists (full ++ open). split; [exact Hgrid|].
  pose proof (length_concat_full full Hfull) as Hfulllen.
  rewrite concat_app in Hcat.
  assert (length technologies = 3 * length full + length (concat open)) as Htotal.
  { by rewrite <- Hcat, length_app, Hfulllen. }
  pose proof (Nat.mod_upper_bound (length technologies) 3 ltac:(lia)) as Hmod.
  split.
  - rewrite length_app.
    destruct Hopen as [[-> Hzero] | (row & -> & Hrow & Hnonzero)].
    + simpl in *.
      destruct (divmod3_unique (length technologies + 2) (length full) 2)
        as [-> _]; lia.
    + simpl in *. rewrite app_nil_r in Htotal.
      destruct (divmod3_unique (length technologies + 2) (S (length full))
                  (length row - 1)) as [-> _]; lia.
  - intros k tech Hk.
    destruct (decide (k < 3 * length full)) as [Hlt | Hge].
    + rewrite <- Hcat in Hk.
      destruct (lookup_concat_full full (concat open) Hfull k tech Hlt Hk)
        as (row & Hrow & Hx).
      exists row. split; [|done].
      rewrite lookup_app_l; [done|]. by eapply lookup_lt_Some.
    + destruct Hopen as [[-> Hzero] | (row & -> & Hrow & Hnonzero)].
      * apply lookup_lt_Some in Hk. simpl in *. lia.
      * simpl in *. rewrite app_nil_r in Htotal, Hcat.
        pose proof (lookup_lt_Some _ _ _ Hk) as Hklt.
        destruct (divmod3_unique k (length full) (k - 3 * length full))
          as [-> ->]; [lia | lia |].
        exists row. split.
        -- rewrite lookup_app_r by lia. by rewrite Nat.sub_diag.
        -- rewrite <- Hcat, lookup_app_r in Hk by lia.
           by rewrite Hfulllen in Hk.
Qed.

(** ** The templates *)

Lemma holdsVerbatim_here (x after : string) : holdsVerbatim x (x +:+ after).
Proof. by exists EmptyString, after. Qed.

Lemma holdsVerbatim_app (x prefix s : string) :
  holdsVerbatim x s → holdsVerbatim x (prefix +:+ s).
Proof.
  intros (before & after & ->). exists (prefix +:+ before), after.
  by rewrite append_assoc.
Qed.

(** X11. The templates that interpolate the content of an element put it into
    the markdown as it is: nothing is escaped and nothing is trimmed. *)
Theorem content_is_not_escaped (toLowerCase : string → string)
    (element : Element) (Hkind : type element ∈ contentKinds) :
  ∃ markdown : string,
    elementMarkdown toLowerCase element = Some markdown
    ∧ holdsVerbatim (content element) markdown.
Proof.
  unfold contentKinds in Hkind.
  repeat (apply elem_of_cons in Hkind as [Hkind | Hkind]);
    [.. | by apply elem_of_nil in Hkind];
    unfold elementMarkdown; repeat (case_decide; try congruence);
    (eexists; split; [reflexivity|]);
    repeat first [ apply holdsVerbatim_here | apply holdsVerbatim_app ].
Qed.

(** X12. The fence of a code block names the language of the element; when the
    element has none, or an empty one, it names [javascript]. *)
Theorem codeBlock_language_fallback (toLowerCase : string → string)
    (element : Element) (Hkind : type element = "code-block") :
  (language element = None ∨ language element = Some EmptyString →
   elementMarkdown toLowerCase element
   = Some ("```javascript" +:+ Text.nl +:+ content element +:+ Text.nl
           +:+ "```" +:+ Text.nl +:+ Text.nl))
  ∧ (∀ lang, language element = Some lang → lang ≠ EmptyString →
     elementMarkdown toLowerCase element
     = Some ("```" +:+ lang +:+ Text.nl +:+ content element +:+ Text.nl
             +:+ "```" +:+ Text.nl +:+ Text.nl)).
Proof.
  split.
  - intros Hlang. switch_cases. by destruct Hlang as [-> | ->].
  - intros lang Hlang Hne. switch_cases. rewrite Hlang.
    by destruct lang.
Qed.

(** ** The label of a badge *)

Lemma list_ascii_of_string_app (s1 s2 : string) :
  list_ascii_of_string (s1 +:+ s2)
  = list_ascii_of_string s1 ++ list_ascii_of_string s2.
Proof.
  induction s1 as [|c s1 IH]; [reflexivity|].
  change (c :: list_ascii_of_string (s1 +:+ s2)
          = c :: (list_ascii_of_string s1 ++ list_ascii_of_string s2)).
  by rewrite IH.
Qed.

Lemma whitePrefix_zero_head (c : ascii) (rest : string) :
  Text.whitePrefix (String c rest) = 0 → asciiSpace c = false.
Proof.
  unfold Text.whitePrefix, asciiSpace.
  destruct ((9 <=? nat_of_ascii c) && (nat_of_ascii c <=? 13)
            || (nat_of_ascii c =? 32)); [discriminate | done].
Qed.

Lemma whitePrefix_ascii (c : ascii) (rest : string) :
  nat_of_ascii c < 128 → asciiSpace c = false →
  Text.whitePrefix (String c rest) = 0.
Proof.
  unfold Text.whitePrefix, asciiSpace. intros Hlt ->.
  assert (∀ k, 128 ≤ k → (nat_of_ascii c =? k) = false) as Hne
    by (intros k Hk; apply Nat.eqb_neq; lia).
  destruct rest as [|c2 [|c3 rest]]; [done| |];
    rewrite !Hne by lia; reflexivity.
Qed.

(** No byte that the replacement writes is ASCII white space, when the
    text put for a run has none. *)
Lemma replaceSpacesFrom_no_space (by_ : string) :
  (∀ c, c ∈ list_ascii_of_string by_ → asciiSpace c = false) →
  ∀ (s : string) (skip : nat) (inRun : bool) (c : ascii),
    c ∈ list_ascii_of_string (Text.replaceSpacesFrom by_ skip inRun s) →
    asciiSpace c = false.
Proof.
  intros Hby. induction s as [|c0 rest IH]; intros skip inRun c Hc.
  - by apply elem_of_nil in Hc.
  - destruct skip as [|k].
    + change (Text.replaceSpacesFrom by_ 0 inRun (String c0 rest))
        with (match Text.whitePrefix (String c0 rest) with
              | O => String c0 (Text.replaceSpacesFrom by_ 0 false rest)
              | S k => (if inRun then EmptyString else by_)
                       +:+ Text.replaceSpacesFrom by_ k true rest
              end) in Hc.
      destruct (Text.whitePrefix (String c0 rest)) as [|k] eqn:Hw.
      * apply elem_of_cons in Hc as [-> | Hc]; [|by eapply IH].
        by eapply whitePrefix_zero_head.
      * rewrite list_ascii_of_string_app in Hc.
        apply elem_of_app in Hc as [Hc | Hc]; [|by eapply IH].
        destruct inRun; [by apply elem_of_nil in Hc | by apply Hby].
    + by eapply IH.
Qed.

(** A text of ASCII bytes without white space is left as it is. *)
Lemma replaceSpaces_plain (by_ s : string) :
  asciiText s →
  (∀ c, c ∈ list_ascii_of_string s → asciiSpace c = false) →
  Text.replaceSpaces by_ s = s.
Proof.
  unfold Text.replaceSpaces, asciiText.
  induction s as [|c rest IH]; intros Hascii Hplain; [reflexivity|].
  apply Forall_cons in Hascii as [Hc Hrest].
  change (match Text.whitePrefix (String c rest) with
          | O => String c (Text.replaceSpacesFrom by_ 0 false rest)
          | S k => by_ +:+ Text.replaceSpacesFrom by_ k true rest
          end = String c rest).
  rewrite whitePrefix_ascii; [|done|apply Hplain; by left].
  rewrite IH; [done|done|]. intros c' Hc'. apply Hplain. by right.
Qed.

Lemma replaceSpacesFrom_step (by_ : string) (inRun : bool) (c : ascii)
    (rest : string) :
  Text.replaceSpacesFrom by_ 0 inRun (String c rest)
  = match Text.whitePrefix (String c rest) with
    | O => String c (Text.replaceSpacesFrom by_ 0 false rest)
    | S k => (if inRun then EmptyString else by_)
             +:+ Text.replaceSpacesFrom by_ k true rest
    end.
Proof. reflexivity. Qed.

Lemma whitePrefix_space (c : ascii) (rest : string) :
  asciiSpace c = true → Text.whitePrefix (String c rest) = 1.
Proof. unfold Text.whitePrefix, asciiSpace. by intros ->. Qed.

(** A word goes through as it is. *)
Lemma replaceSpacesFrom_word (by_ word rest : string) :
  plainWord word →
  ∀ inRun : bool,
    Text.replaceSpacesFrom by_ 0 inRun (word +:+ rest)
    = word +:+ Text.replaceSpacesFrom by_ 0
                 (match word with EmptyString => inRun | _ => false end) rest.
Proof.
  unfold plainWord.
  induction word as [|c word IH]; intros Hword inRun; [reflexivity|].
  cbn [list_ascii_of_string] in Hword.
  apply Forall_cons in Hword as [[Hc Hplain] Hword].
  change (String c word +:+ rest) with (String c (word +:+ rest)).
  rewrite replaceSpacesFrom_step, whitePrefix_ascii by done.
  rewrite (IH Hword false). by destruct word.
Qed.

(** A run of white space becomes one copy of the replacement, or none if
    the run continues one that was replaced already. *)
Lemma replaceSpacesFrom_run (by_ run rest : string) :
  Forall (fun c => asciiSpace c = true) (list_ascii_of_string run) →
  run ≠ EmptyString →
  ∀ inRun : bool,
    Text.replaceSpacesFrom by_ 0 inRun (run +:+ rest)
    = (if inRun then EmptyString else by_)
      +:+ Text.replaceSpacesFrom by_ 0 true rest.
Proof.
  induction run as [|c run IH]; intros Hrun Hne inRun; [done|].
  cbn [list_ascii_of_string] in Hrun.
  apply Forall_cons in Hrun as [Hc Hrun].
  change (String c run +:+ rest) with (String c (run +:+ rest)).
  rewrite replaceSpacesFrom_step, (whitePrefix_space c _ Hc).
  f_equal. destruct run as [|c' run]; [reflexivity|].
  by rewrite (IH Hrun ltac:(discriminate) true).
Qed.

(** Words separated by maximal runs of white space come out joined by the
    replacement. *)
Lemma replaceSpacesFrom_spacedText (by_ : string)
    (more : list (string * string)) :
  ∀ (word : string) (inRun : bool),
    plainWord word →
    Forall (fun pair => spaceRun pair.1 ∧ plainWord pair.2) more →
    innerWordsNonEmpty more →
    word ≠ EmptyString ∨ inRun = false ∨ more = [] →
    Text.replaceSpacesFrom by_ 0 inRun (spacedText word more)
    = Text.join by_ (word :: map snd more).
Proof.
  induction more as [|[run next] rest IH];
    intros word inRun Hword Hmore Hinner Hstart.
  - cbn [spacedText map Text.join].
    rewrite <- (append_nil_r word) at 1.
    rewrite (replaceSpacesFrom_word by_ word EmptyString Hword inRun).
    apply append_nil_r.
  - apply Forall_cons in Hmore as [[[Hne Hrun] Hnext] Hrest].
    cbn [spacedText].
    rewrite (replaceSpacesFrom_word by_ word _ Hword inRun).
    assert (match word with EmptyString => inRun | _ => false end = false)
      as ->.
    { destruct Hstart as [Hw | [-> | Hnil]];
        [by destruct word | by destruct word | discriminate]. }
    rewrite (replaceSpacesFrom_run by_ run _ Hrun Hne false).
    rewrite (IH next true Hnext Hrest).
    + reflexivity.
    + destruct rest as [|pair rest]; [exact I|]. apply Hinner.
    + destruct rest as [|pair rest]; [by right; right|]. left. apply Hinner.
Qed.

(** X13. The badge template keeps the content as the alternative text and
    puts it into the address of the image with every maximal run of white
    space replaced by [%20]: for a content of ASCII words separated by
    runs of ASCII white space, the address part is the words joined by
    [%20].  That part holds no ASCII white space whatever the content is,
    and it is the content itself when that is one word. *)
Theorem badge_address_has_no_space (toLowerCase : string → string)
    (element : Element) (Hkind : type element = "badge") :
  (∀ (word : string) (more : list (string * string)),
     content element = spacedText word more →
     plainWord word →
     Forall (fun pair => spaceRun pair.1 ∧ plainWord pair.2) more →
     innerWordsNonEmpty more →
     elementMarkdown toLowerCase element
     = Some ("![" +:+ content element +:+ "](https://img.shields.io/badge/-"
             +:+ Text.join "%20" (word :: map snd more)
             +:+ "-brightgreen)" +:+ Text.nl +:+ Text.nl))
  ∧ ∃ label : string,
      elementMarkdown toLowerCase element
      = Some ("![" +:+ content element +:+ "](https://img.shields.io/badge/-"
              +:+ label +:+ "-brightgreen)" +:+ Text.nl +:+ Text.nl)
      ∧ (∀ c, c ∈ list_ascii_of_string label → asciiSpace c = false)
      ∧ (asciiText (content element) →
         (∀ c, c ∈ list_ascii_of_string (content element) →
               asciiSpace c = false) →
         label = content element).
Proof.
  assert (elementMarkdown toLowerCase element
          = Some ("![" +:+ content element
                  +:+ "](https://img.shields.io/badge/-"
                  +:+ Text.replaceSpaces "%20" (content element)
                  +:+ "-brightgreen)" +:+ Text.nl +:+ Text.nl)) as Hmd
    by switch_cases.
  split.
  - intros word more Hcontent Hword Hmore Hinner.
    rewrite Hmd.
    assert (Text.replaceSpaces "%20" (content element)
            = Text.join "%20" (word :: map snd more)) as ->; [|reflexivity].
    unfold Text.replaceSpaces. rewrite Hcontent.
    apply replaceSpacesFrom_spacedText; auto.
  - exists (Text.replaceSpaces "%20" (content element)).
    split; [exact Hmd|]. split.
    + intros c Hc. eapply (replaceSpacesFrom_no_space "%20"); [|exact Hc].
      intros c' Hc'. simpl in Hc'.
      repeat (apply elem_of_cons in Hc' as [-> | Hc']); try reflexivity.
      by apply elem_of_nil in Hc'.
    + apply replaceSpaces_plain.
Qed.

(** X14. A table without data rows still gets the line of the rows, an empty
    one; a table without headers gets an empty header cell and an empty
    separator cell. *)
Theorem table_empty_edges (toLowerCase : string → string) (element : Element)
    (Hkind : type element = "table") :
  (rows element = [] →
   elementMarkdown toLowerCase element
   = Some (tableRow (headers element) +:+ Text.nl
           +:+ tableRow (replicate (length (headers element)) "---")
           +:+ Text.nl +:+ Text.nl +:+ Text.nl))
  ∧ (headers element = [] →
     elementMarkdown toLowerCase element
     = Some ("|  |" +:+ Text.nl +:+ "|  |" +:+ Text.nl
             +:+ Text.join Text.nl (map tableRow (rows element))
             +:+ Text.nl +:+ Text.nl)).
Proof.
  split.
  - intros Hrows. switch_cases. rewrite Hrows.
    assert (map (fun _ : string => "---") (headers element)
            = replicate (length (headers element)) "---") as ->
      by (induction (headers element) as [|h l IH]; simpl; [done | by rewrite IH]).
    reflexivity.
  - intros Hheaders. switch_cases. by rewrite Hheaders.
Qed.

(** ** What the actions leave behind *)

(** The browser after the download script, written out. *)
Lemma downloadMarkdown_run (toLowerCase : string → string)
    (props : ReadmePreviewProps) (b : Browser) (markdown : string) :
  markdownOf toLowerCase props = Some markdown →
  downloadMarkdown toLowerCase props b
  = Some (tt,
          mkBrowser (clipboard b)
            (delete (nextURL b)
               (<[nextURL b := mkBlob [markdown] "text/markdown"]> (objectURLs b)))
            (S (nextURL b))
            (<[nextNode b := mkAnchor (Some (nextURL b)) (Some "README.md")]>
               (<[nextNode b := mkAnchor (Some (nextURL b)) None]>
                  (<[nextNode b := mkAnchor None None]> (nodes b))))
            (S (nextNode b))
            (List.filter (fun n => negb (n =? nextNode b))
               (List.filter (fun n => negb (n =? nextNode b)) (body b)
                ++ [nextNode b]))
            (saved b ++ [mkSavedFile "README.md" "text/markdown" markdown])).
Proof.
  intros Hmd. unfold downloadMarkdown. rewrite Hmd.
  script_step ltac:(reflexivity).
  script_step ltac:(apply createObjectURL_run).
  script_step ltac:(apply createElement_a_run).
  script_step ltac:(apply updateNode_run; cbn [nodes]; apply lookup_insert_eq).
  script_step ltac:(apply updateNode_run; cbn [nodes]; apply lookup_insert_eq).
  script_step ltac:(apply appendChild_run).
  script_step ltac:(eapply click_run; cbn [nodes objectURLs href download];
                    [ apply lookup_insert_eq | reflexivity | reflexivity
                    | apply lookup_insert_eq ]).
  script_step ltac:(apply removeChild_run; cbn [body];
                    apply elem_of_app; right; by left).
  apply revokeObjectURL_run.
Qed.

Lemma filter_other_id (a : nat) (l : list nat) :
  a ∉ l → List.filter (fun n => negb (n =? a)) l = l.
Proof.
  induction l as [|x l IH]; intros Hnot; [done|].
  apply not_elem_of_cons in Hnot as [Hne Hnot]. simpl.
  destruct (Nat.eqb_spec x a) as [-> | _]; [done|]. simpl. by rewrite IH.
Qed.

Lemma filter_this_id (a : nat) :
  List.filter (fun n => negb (n =? a)) [a] = [].
Proof. simpl. by rewrite Nat.eqb_refl. Qed.

(** X16. The download cleans up after itself: in a well-formed browser the
    children of the body and the object URLs are afterwards what they were
    before (the anchor is removed, the URL revoked), the clipboard is
    untouched, and the browser is well-formed again. *)
Theorem downloadMarkdown_cleans_up (toLowerCase : string → string)
    (props : ReadmePreviewProps) (browser : Browser)
    (Hwf : wellFormed browser) :
  ∃ browser' : Browser,
    downloadMarkdown toLowerCase props browser = Some (tt, browser')
    ∧ body browser' = body browser
    ∧ objectURLs browser' = objectURLs browser
    ∧ clipboard browser' = clipboard browser
    ∧ length (saved browser') = S (length (saved browser))
    ∧ wellFormed browser'.
Proof.
  destruct Hwf as (Hbody & Hnodes & Hurls).
  assert (nextNode browser ∉ body browser) as Hfresh
    by (intros Hin; apply Hbody in Hin; lia).
  assert (objectURLs browser !! nextURL browser = None) as Hfree.
  { destruct (objectURLs browser !! nextURL browser) eqn:Hu; [|done].
    assert (nextURL browser < nextURL browser) by (apply Hurls; by eexists).
    lia. }
  destruct (markdownOf toLowerCase props) as [markdown|] eqn:Hmd.
  2: { unfold markdownOf in Hmd. by rewrite generateMarkdown_total in Hmd. }
  eexists. split; [by apply downloadMarkdown_run|].
  cbn [body objectURLs clipboard saved].
  assert (List.filter (fun n => negb (n =? nextNode browser))
            (List.filter (fun n => negb (n =? nextNode browser)) (body browser)
             ++ [nextNode browser]) = body browser) as Hsame.
  { rewrite List.filter_app, filter_this_id, app_nil_r.
    rewrite (filter_other_id _ (body browser) Hfresh).
    by apply filter_other_id. }
  split; [exact Hsame|].
  split; [by apply delete_insert_id|].
  split; [done|].
  split; [rewrite length_app; simpl; lia|].
  unfold wellFormed. cbn [body nodes nextNode objectURLs nextURL].
  rewrite Hsame, delete_insert_id by done.
  split; [|split].
  - intros a Ha. apply Hbody in Ha. lia.
  - intros a Ha.
    repeat (apply lookup_insert_is_Some' in Ha as [<- | Ha]; [lia|]).
    apply Hnodes in Ha. lia.
  - intros u Hu. apply Hurls in Hu. lia.
Qed.

(** X10. A tech-stack element without technologies: the [badges] and the [list]
    layout give the bare heading, every other layout the heading and the
    head of the table, each with an empty line where the technologies
    would be. *)
Theorem techStack_without_technologies (toLowerCase : string → string)
    (element : Element) (Hkind : type element = "tech-stack")
    (Hnone : technologies element = []) :
  elementMarkdown toLowerCase element
  = Some ("## " +:+ Text.zap +:+ " Tech Stack" +:+ Text.nl +:+ Text.nl
          +:+ (if bool_decide (layout element = Some "badges")
                  || bool_decide (layout element = Some "list")
               then EmptyString
               else "| | | |" +:+ Text.nl +:+ "|---|---|---|" +:+ Text.nl)
          +:+ Text.nl +:+ Text.nl).
Proof.
  unfold elementMarkdown. rewrite Hnone.
  repeat (case_decide; try congruence); repeat case_bool_decide;
    try congruence; reflexivity.
Qed.

(** X15. Copy and download export the same text.  When the browser grants
    the clipboard write, the copy action followed by the download leaves
    on the clipboard and in the saved [README.md] exactly the markdown
    which the markdown tab shows, and the notice is on until the timer
    callback runs; when the browser rejects the write the action raises:
    nothing is written and the notice is never set. *)
Theorem copy_and_download_export_the_same (toLowerCase : string → string)
    (props : ReadmePreviewProps) (hooks : Hooks) (browser : Browser) :
  (∃ (markdown : string) (hooks' : Hooks) (copied_ saved_ : Browser),
     copyToClipboard toLowerCase props hooks true browser
     = Some (hooks', copied_)
     ∧ downloadMarkdown toLowerCase props copied_ = Some (tt, saved_)
     ∧ markdownCode (render toLowerCase props hooks') = Some markdown
     ∧ clipboard saved_ = Some markdown
     ∧ saved saved_
       = saved browser ++ [mkSavedFile "README.md" "text/markdown" markdown]
     ∧ copiedNotice (render toLowerCase props hooks') = true
     ∧ copiedNotice (render toLowerCase props (copiedTimeout hooks')) = false)
  ∧ copyToClipboard toLowerCase props hooks false browser = None.
Proof.
  split; [|by apply copyToClipboard_rejected].
  destruct (markdownOf toLowerCase props) as [markdown|] eqn:Hmd.
  2: { unfold markdownOf in Hmd. by rewrite generateMarkdown_total in Hmd. }
  do 4 eexists.
  split; [by apply copyToClipboard_run|].
  split; [by apply downloadMarkdown_run|].
  cbn [render markdownCode copiedNotice copied copiedTimeout clipboard saved].
  rewrite Hmd. repeat split.
Qed.

(** * The further properties at sample inputs *)

Lemma hidden_element_contributes_nothing_witness :
  ¬ visibleIn client SampleMore.installation
  ∧ generateMarkdown Text.asciiToLowerCase
      ([Sample.header] ++ SampleMore.installation :: [Sample.dots]) client
    = generateMarkdown Text.asciiToLowerCase
        ([Sample.header] ++ [Sample.dots]) client.
Proof.
  assert (¬ visibleIn client SampleMore.installation) as Hhidden.
  { rewrite <- includes_visibleIn. vm_compute. discriminate. }
  split; [exact Hhidden|].
  exact (hidden_element_contributes_nothing Text.asciiToLowerCase
           SampleMore.installation [Sample.header] [Sample.dots] client Hhidden).
Defined.

Lemma rendered_kinds_hidden_witness :
  type SampleMore.installation ∈ handledKinds
  ∧ includes (allowedModes SampleMore.installation) client = false.
Proof.
  assert (type SampleMore.installation ∈ handledKinds) as Hkind by compute_done.
  split; [exact Hkind|].
  apply (rendered_kinds_hidden SampleMore.installation client Hkind).
  left. split; [reflexivity | discriminate].
Defined.

Lemma rendered_block_ends_with_blank_line_witness :
  type Sample.techStack ∈ handledKinds
  ∧ ∃ markdown : string,
      elementMarkdown Text.asciiToLowerCase Sample.techStack = Some markdown
      ∧ endsWithBlankLine markdown
      ∧ markdown ≠ EmptyString.
Proof.
  assert (type Sample.techStack ∈ handledKinds) as Hkind by compute_done.
  split; [exact Hkind|].
  exact (rendered_block_ends_with_blank_line Text.asciiToLowerCase
           Sample.techStack Hkind).
Defined.

Lemma content_is_not_escaped_witness :
  type Sample.header ∈ contentKinds
  ∧ ∃ markdown : string,
      elementMarkdown Text.asciiToLowerCase Sample.header = Some markdown
      ∧ holdsVerbatim "README Design Kit" markdown.
Proof.
  assert (type Sample.header ∈ contentKinds) as Hkind by compute_done.
  split; [exact Hkind|].
  exact (content_is_not_escaped Text.asciiToLowerCase Sample.header Hkind).
Defined.

Lemma codeBlock_language_fallback_witness :
  type SampleMore.codeBlock = "code-block"
  ∧ language SampleMore.codeBlock = Some EmptyString
  ∧ elementMarkdown Text.asciiToLowerCase SampleMore.codeBlock
    = Some ("```javascript" +:+ Text.nl +:+ "print(1)" +:+ Text.nl
            +:+ "```" +:+ Text.nl +:+ Text.nl).
Proof.
  split; [reflexivity|]. split; [reflexivity|].
  exact (proj1 (codeBlock_language_fallback Text.asciiToLowerCase
                  SampleMore.codeBlock eq_refl) (or_intror eq_refl)).
Defined.

Lemma badge_address_has_no_space_witness :
  type SampleMore.badge = "badge"
  ∧ content SampleMore.badge = spacedText "build" [("  ", "passing")]
  ∧ elementMarkdown Text.asciiToLowerCase SampleMore.badge
    = Some ("![build  passing]"
            +:+ "(https://img.shields.io/badge/-build%20passing-brightgreen)"
            +:+ Text.nl +:+ Text.nl).
Proof.
  split; [reflexivity|]. split; [reflexivity|].
  refine (proj1 (badge_address_has_no_space Text.asciiToLowerCase
                   SampleMore.badge eq_refl)
            "build" [("  ", "passing")] eq_refl _ _ I).
  - unfold plainWord. compute_done.
  - constructor; [|constructor]. split.
    + split; [discriminate|]. compute_done.
    + unfold plainWord. compute_done.
Defined.

Lemma table_empty_edges_witness :
  type SampleMore.emptyTable = "table"
  ∧ rows SampleMore.emptyTable = []
  ∧ elementMarkdown Text.asciiToLowerCase SampleMore.emptyTable
    = Some ("|  |" +:+ Text.nl +:+ "|  |" +:+ Text.nl
            +:+ Text.nl +:+ Text.nl).
Proof.
  split; [reflexivity|]. split; [reflexivity|].
  exact (proj1 (table_empty_edges Text.asciiToLowerCase
                  SampleMore.emptyTable eq_refl) eq_refl).
Defined.

Lemma techStack_without_technologies_witness :
  type SampleMore.emptyStack = "tech-stack"
  ∧ technologies SampleMore.emptyStack = []
  ∧ elementMarkdown Text.asciiToLowerCase SampleMore.emptyStack
    = Some ("## " +:+ Text.zap +:+ " Tech Stack" +:+ Text.nl +:+ Text.nl
            +:+ "| | | |" +:+ Text.nl +:+ "|---|---|---|" +:+ Text.nl
            +:+ Text.nl +:+ Text.nl).
Proof.
  split; [reflexivity|]. split; [reflexivity|].
  exact (techStack_without_technologies Text.asciiToLowerCase
           SampleMore.emptyStack eq_refl eq_refl).
Defined.

Lemma downloadMarkdown_cleans_up_witness :
  wellFormed SampleMore.emptyBrowser
  ∧ ∃ browser' : Browser,
      downloadMarkdown Text.asciiToLowerCase Sample.props
        SampleMore.emptyBrowser = Some (tt, browser')
      ∧ body browser' = []
      ∧ objectURLs browser' = ∅.
Proof.
  assert (wellFormed SampleMore.emptyBrowser) as Hwf.
  { split; [|split].
    - intros a Ha. by apply elem_of_nil in Ha.
    - intros a [node Ha]. cbn [SampleMore.emptyBrowser nodes] in Ha.
      by rewrite lookup_empty in Ha.
    - intros u [blob Hu]. cbn [SampleMore.emptyBrowser objectURLs] in Hu.
      by rewrite lookup_empty in Hu. }
  split; [exact Hwf|].
  destruct (downloadMarkdown_cleans_up Text.asciiToLowerCase Sample.props
              SampleMore.emptyBrowser Hwf)
    as (browser' & Hrun & Hbody & Hurls & _).
  exists browser'. split; [exact Hrun|]. split; [exact Hbody | exact Hurls].
Defined.

(** * The amended claims at sample inputs *)



(** C7 as it stands fails when the host writes to the array in place: a
    first render on [heapBefore] leaves [staleCell]; after the push, the
    instance that holds this cell and a fresh instance render the same
    element list in the same view mode, and show different markdown. *)
Lemma markdown_stale_memo_counterexample :
  fst <$> Runtime.render Text.asciiToLowerCase SampleRuntime.heapBefore None
            SampleRuntime.props
  = Some SampleRuntime.staleCell
  ∧ Runtime.elementList SampleRuntime.heapAfter SampleRuntime.props
    = Some [Sample.header; Sample.dots]
  ∧ snd <$> Runtime.render Text.asciiToLowerCase SampleRuntime.heapAfter
              (Some SampleRuntime.staleCell) SampleRuntime.props
    = Some ("# README Design Kit" +:+ Text.nl +:+ Text.nl)
  ∧ snd <$> Runtime.render Text.asciiToLowerCase SampleRuntime.heapAfter
              None SampleRuntime.props
    = Some ("# README Design Kit" +:+ Text.nl +:+ Text.nl
            +:+ "<div align=" +:+ Text.dquote +:+ "center" +:+ Text.dquote
            +:+ ">" +:+ Text.bullet +:+ " " +:+ Text.bullet +:+ " "
            +:+ Text.bullet +:+ "</div>" +:+ Text.nl +:+ Text.nl)
  ∧ snd <$> Runtime.render Text.asciiToLowerCase SampleRuntime.heapAfter
              (Some SampleRuntime.staleCell) SampleRuntime.props
    ≠ snd <$> Runtime.render Text.asciiToLowerCase SampleRuntime.heapAfter
                None SampleRuntime.props.
Proof.
  split; [vm_compute; reflexivity|].
  split; [vm_compute; reflexivity|].
  split; [vm_compute; reflexivity|].
  split; [vm_compute; reflexivity|].
  vm_compute. discriminate.
Defined.

Lemma every_element_visible_somewhere_witness :
  (type Sample.header ∉ objectPrototypeMembers)
  ∧ ∃ mode : ViewMode, Runtime.isAllowed mode Sample.header = Some true.
Proof.
  assert (type Sample.header ∉ objectPrototypeMembers) as Hkind
    by compute_done.
  split; [exact Hkind|].
  destruct (every_element_visible_somewhere Sample.header Hkind)
    as (mode & Hmode & _).
  exists mode. exact Hmode.
Defined.
